(** * Smart Cloud Cost Analytics Dashboard: the cost analytics service

    A shallow embedding of [Main_Go_Service.go]: the three operations
    [GetCostTrends], [DetectAnomalies] and [ForecastCosts] of the
    [CostAnalytics] service, together with the BigQuery queries they
    send, and the properties the specification states about them;
    then [UpdateGoogleSheets] and the four HTTP handlers that call the
    operations, and further properties of the code.

    Conventions of the model.

    - Numbers.  BigQuery [FLOAT64] values are modelled by the exact
      rationals [Qc]; Go [float64] values by [float64] below: an exact
      rational, or one of the three IEEE 754 special values.  There is
      no rounding, no overflow and no signed zero: the arithmetic is
      the arithmetic the code intends, and the one place where the
      special values arise from finite inputs is division by zero.
    - Dates.  A [DATE], and a [time.Time] that holds one, is the number
      of days since 1970-01-01; a [TIMESTAMP] is a number of
      microseconds since then.
    - The warehouse.  The billing table, [CURRENT_DATE()] and the
      engine's square root are fields of [BigQuery]; [read_error] is
      the failure of a warehouse that cannot run queries, and
      [invalid_query] is what it answers to a text that is not SQL.
    - The Sheets service and the Go library.  [UpdateGoogleSheets]
      and the handlers take as arguments the Sheets client, which
      stands for the service it talks to, and what they use of the Go
      library: the order in which [range] visits a map, and the texts
      of dates and of numbers.  The calls made to the Sheets service
      are passed in and handed back. *)

From Stdlib Require Import ZArith QArith Qround Qcanon Lqa Ascii.
From stdpp Require Import gmap strings list sorting.

(** ** Numbers *)

Inductive float64 : Type :=
| Fin (q : Qc)
| PInf
| NInf
| NaN.

Definition Qc_ltb (a b : Qc) : bool := bool_decide (a < b)%Qc.
Definition Qc_leb (a b : Qc) : bool := bool_decide (a <= b)%Qc.
Definition Qc_eqb (a b : Qc) : bool := bool_decide (a = b).

Definition inf (negative : bool) : float64 := if negative then NInf else PInf.

(** [x + y] *)
Definition fadd (x y : float64) : float64 :=
  match x, y with
  | NaN, _ | _, NaN => NaN
  | PInf, NInf | NInf, PInf => NaN
  | PInf, _ | _, PInf => PInf
  | NInf, _ | _, NInf => NInf
  | Fin a, Fin b => Fin (a + b)
  end.

Definition fopp (x : float64) : float64 :=
  match x with
  | Fin a => Fin (- a)
  | PInf => NInf
  | NInf => PInf
  | NaN => NaN
  end.

(** [x - y] *)
Definition fsub (x y : float64) : float64 := fadd x (fopp y).

(** The sign of a value that is not a NaN: [Some true] when negative,
    [None] when zero. *)
Definition fsign (x : float64) : option bool :=
  match x with
  | Fin a => if Qc_eqb a 0 then None else Some (Qc_ltb a 0)
  | PInf => Some false
  | NInf => Some true
  | NaN => None
  end.

(** [x * y] *)
Definition fmul (x y : float64) : float64 :=
  match x, y with
  | NaN, _ | _, NaN => NaN
  | Fin a, Fin b => Fin (a * b)
  | _, _ =>
      match fsign x, fsign y with
      | Some sx, Some sy => inf (xorb sx sy)
      | _, _ => NaN
      end
  end.

(** [x / y]: a finite nonzero value divided by zero is an infinity of
    the sign of the dividend, zero divided by zero is a NaN. *)
Definition fdiv (x y : float64) : float64 :=
  match x, y with
  | NaN, _ | _, NaN => NaN
  | Fin a, Fin b =>
      if Qc_eqb b 0 then
        match fsign x with
        | Some sx => inf sx
        | None => NaN
        end
      else Fin (a / b)
  | Fin _, _ => Fin 0
  | PInf, Fin b => inf (Qc_ltb b 0)
  | NInf, Fin b => inf (negb (Qc_ltb b 0))
  | _, _ => NaN
  end.

(** [x < y]: false as soon as one side is a NaN. *)
Definition flt (x y : float64) : bool :=
  match x, y with
  | NaN, _ | _, NaN => false
  | Fin a, Fin b => Qc_ltb a b
  | NInf, (Fin _ | PInf) => true
  | Fin _, PInf => true
  | _, _ => false
  end.

(** [float64(i)] for an [int] *)
Definition float64_of_int (i : Z) : float64 := Fin (Qc_of_Z i).

Definition is_finite (x : float64) : bool :=
  match x with Fin _ => true | _ => false end.

(** ** Errors *)

(** A Go [(T, error)] result; an error is the text [fmt.Errorf] built. *)
Inductive result (A : Type) : Type :=
| Ok (a : A)
| Err (msg : string).
Arguments Ok {A} a.
Arguments Err {A} msg.

(** ** The billing table and the SQL the queries use *)

(** One row of the billing export, with the columns the queries read:
    [usage_start_time], [project.id], [service.description], [cost]
    and the [amount]s of the [credits] array. *)
Record BillingRow : Type := {
  usage_start_time : Z;
  project_id : string;
  service_description : string;
  cost : Qc;
  credits : list Qc
}.

Record BigQuery : Type := {
  table : list BillingRow;
  CURRENT_DATE : Z;
  SQRT : Qc -> Qc;
  read_error : option string;
  invalid_query : string
}.

(** [DATE(ts)] *)
Definition DATE (ts : Z) : Z := (ts / 86400000000)%Z.

(** The sum of a column over the rows of a group. *)
Definition total (l : list Qc) : Qc := foldr Qcplus 0%Qc l.

(** [SUM] over a set of rows that may be empty: NULL when it is. *)
Definition SUM (l : list Qc) : option Qc :=
  match l with
  | [] => None
  | _ => Some (total l)
  end.

Definition IFNULL (x : option Qc) (d : Qc) : Qc := default d x.

(** [NULLIF(x, y)] *)
Definition NULLIF (x y : Qc) : option Qc := if Qc_eqb x y then None else Some x.

Definition ABS (x : Qc) : Qc := if Qc_ltb x 0 then (- x)%Qc else x.

(** [COUNT( * )] *)
Definition COUNT {A : Type} (l : list A) : Z := Z.of_nat (length l).

(** [AVG]: over a group, which has at least one row. *)
Definition AVG (l : list Qc) : Qc := (total l / Qc_of_Z (COUNT l))%Qc.

(** [STDDEV], the sample standard deviation: NULL on fewer than two
    rows.  [sqrt] is the engine's square root. *)
Definition STDDEV (sqrt : Qc -> Qc) (l : list Qc) : option Qc :=
  if (COUNT l <? 2)%Z then None
  else
    let m := AVG l in
    Some (sqrt (total (map (fun x => (x - m) * (x - m))%Qc l)
                  / Qc_of_Z (COUNT l - 1))%Qc).

(** [(SELECT SUM(amount) FROM UNNEST(credits))], NULL replaced by 0 *)
Definition credit_amount (r : BillingRow) : Qc := IFNULL (SUM (credits r)) 0%Qc.

(** [GROUP BY]: one group for each distinct key, holding the rows of
    that key in the order of the input.  SQL leaves the order of the
    groups open; the model fixes one. *)
Definition GROUP_BY {A K : Type} `{EqDecision K}
    (key : A -> K) (rows : list A) : list (K * list A) :=
  map (fun k => (k, filter (fun a => key a = k) rows))
      (remove_dups (map key rows)).

(** [ORDER BY]: a stable insertion sort; [le a b] says [a] may come
    before [b]. *)
Fixpoint insert_sorted {A : Type} (le : A -> A -> bool) (a : A) (l : list A) : list A :=
  match l with
  | [] => [a]
  | b :: l' => if le a b then a :: l else b :: insert_sorted le a l'
  end.

Definition ORDER_BY {A : Type} (le : A -> A -> bool) (l : list A) : list A :=
  foldr (insert_sorted le) [] l.

(** ** The service *)

(** [CostTrend]; a [nil] map reads as the empty map. *)
Record CostTrend : Type := {
  Date : Z;
  TotalCost : float64;
  ServiceCost : gmap string float64;
  ProjectCost : gmap string float64
}.

(** [Anomaly], without its [Description], a text formatted from the
    other fields. *)
Record Anomaly : Type := {
  anomaly_Date : Z;
  ProjectID : string;
  ServiceName : string;
  ActualCost : float64;
  ExpectedCost : float64;
  DeviationPct : float64;
  Severity : string
}.

(** [CostAnalytics]: the BigQuery client stands for the warehouse it
    talks to; the Sheets client and the three identifiers that name the
    table play no part in the three operations. *)
Record CostAnalytics : Type := {
  bqClient : BigQuery
}.

(** [q.Read(ctx)] *)
Definition Read (bq : BigQuery) : result (list BillingRow) :=
  match read_error bq with
  | Some e => Err e
  | None => Ok (table bq)
  end.

(** *** GetCostTrends *)

(** A row of [daily_costs]. *)
Record daily_costs_row : Type := {
  dc_usage_date : Z;
  dc_project_id : string;
  dc_service_name : string;
  dc_total_cost : Qc;
  dc_total_credits : Qc
}.

(** [SELECT DATE(usage_start_time), project.id, service.description,
    SUM(cost), SUM(IFNULL((SELECT SUM(amount) FROM UNNEST(credits)), 0))
    ... WHERE DATE(usage_start_time) >= DATE_SUB(CURRENT_DATE(), INTERVAL days DAY)
    GROUP BY usage_date, project_id, service_name] *)
Definition daily_costs (tbl : list BillingRow) (today days : Z) : list daily_costs_row :=
  map (fun '((d, p, s), rows) =>
         {| dc_usage_date := d;
            dc_project_id := p;
            dc_service_name := s;
            dc_total_cost := total (map cost rows);
            dc_total_credits := total (map credit_amount rows) |})
      (GROUP_BY (fun r => (DATE (usage_start_time r), project_id r, service_description r))
         (filter (fun r => (today - days <= DATE (usage_start_time r))%Z) tbl)).

(** A row of [aggregated_costs], as the Go [row] struct receives it. *)
Record aggregated_costs_row : Type := {
  UsageDate : Z;
  DailyTotal : Qc;
  ServiceCosts : list (string * Qc);
  ProjectCosts : list (string * Qc)
}.

(** [total_cost + total_credits] *)
Definition net (r : daily_costs_row) : Qc := (dc_total_cost r + dc_total_credits r)%Qc.

(** [SELECT usage_date, SUM(total_cost + total_credits),
    ARRAY_AGG(STRUCT(service_name, total_cost + total_credits)),
    ARRAY_AGG(STRUCT(project_id, total_cost + total_credits))
    FROM daily_costs GROUP BY usage_date ORDER BY usage_date]: the two
    arrays have one entry for each (project, service) pair of the day. *)
Definition aggregated_costs (tbl : list BillingRow) (today days : Z)
    : list aggregated_costs_row :=
  ORDER_BY (fun a b => bool_decide (UsageDate a <= UsageDate b)%Z)
    (map (fun '(d, rows) =>
            {| UsageDate := d;
               DailyTotal := total (map net rows);
               ServiceCosts := map (fun r => (dc_service_name r, net r)) rows;
               ProjectCosts := map (fun r => (dc_project_id r, net r)) rows |})
         (GROUP_BY dc_usage_date (daily_costs tbl today days))).

(** [m := make(map[string]float64); for _, c := range costs { m[c.key] = c.Cost }] *)
Definition costs_map (costs : list (string * Qc)) : gmap string float64 :=
  fold_left (fun m c => <[c.1 := Fin c.2]> m) costs ∅.

(** The body of the loop. *)
Definition trend_of_row (row : aggregated_costs_row) : CostTrend :=
  {| Date := UsageDate row;
     TotalCost := Fin (DailyTotal row);
     ServiceCost := costs_map (ServiceCosts row);
     ProjectCost := costs_map (ProjectCosts row) |}.

(** The iterator delivers every row of the result, and its end is the
    error that leaves the loop. *)
Definition GetCostTrends (ca : CostAnalytics) (days : Z) : result (list CostTrend) :=
  match Read (bqClient ca) with
  | Err e => Err ("failed to execute query: " ++ e)
  | Ok tbl =>
      Ok (map trend_of_row (aggregated_costs tbl (CURRENT_DATE (bqClient ca)) days))
  end.

(** *** DetectAnomalies *)

(** A row of [historical_data] or of [recent_costs]. *)
Record daily_cost_row : Type := {
  usage_date : Z;
  row_project_id : string;
  row_service_name : string;
  daily_cost : Qc
}.

(** [cost + IFNULL((SELECT SUM(amount) FROM UNNEST(credits)), 0)] *)
Definition net_cost (r : BillingRow) : Qc := (cost r + credit_amount r)%Qc.

(** [SELECT DATE(usage_start_time), project.id, service.description,
    SUM(cost + ...) ... GROUP BY usage_date, project_id, service_name] *)
Definition daily_cost_rows (rows : list BillingRow) : list daily_cost_row :=
  map (fun '((d, p, s), g) =>
         {| usage_date := d;
            row_project_id := p;
            row_service_name := s;
            daily_cost := total (map net_cost g) |})
      (GROUP_BY (fun r => (DATE (usage_start_time r), project_id r, service_description r))
         rows).

Definition historical_data (tbl : list BillingRow) (today days : Z) : list daily_cost_row :=
  daily_cost_rows (filter (fun r => (today - days <= DATE (usage_start_time r))%Z) tbl).

Record stats_row : Type := {
  stats_project_id : string;
  stats_service_name : string;
  avg_cost : Qc;
  stddev_cost : option Qc;
  data_points : Z
}.

(** The daily costs the baseline of a pair is computed from: its rows of
    [historical_data] before yesterday. *)
Definition baseline_window (tbl : list BillingRow) (today days : Z) : list daily_cost_row :=
  filter (fun h => (usage_date h < today - 1)%Z) (historical_data tbl today days).

Definition stats (sqrt : Qc -> Qc) (tbl : list BillingRow) (today days : Z) : list stats_row :=
  filter (fun st => (7 <= data_points st)%Z)
    (map (fun '((p, s), g) =>
            {| stats_project_id := p;
               stats_service_name := s;
               avg_cost := AVG (map daily_cost g);
               stddev_cost := STDDEV sqrt (map daily_cost g);
               data_points := COUNT g |})
         (GROUP_BY (fun h => (row_project_id h, row_service_name h))
            (baseline_window tbl today days))).

Definition recent_costs (tbl : list BillingRow) (today : Z) : list daily_cost_row :=
  daily_cost_rows (filter (fun r => DATE (usage_start_time r) = (today - 1)%Z) tbl).

(** [ABS(r.daily_cost - s.avg_cost) / NULLIF(s.stddev_cost, 0)]: NULL
    when the standard deviation is NULL or zero. *)
Definition z_score (r : daily_cost_row) (st : stats_row) : option Qc :=
  sd ← stddev_cost st;
  d ← NULLIF sd 0%Qc;
  Some (ABS (daily_cost r - avg_cost st) / d)%Qc.

(** A row of the result: the columns of the final [SELECT]. *)
Record anomaly_row : Type := {
  row_UsageDate : Z;
  row_ProjectID : string;
  row_ServiceName : string;
  row_ActualCost : Qc;
  row_ExpectedCost : Qc;
  row_StddevCost : Qc;
  row_ZScore : Qc
}.

(** [r JOIN s ON ... WHERE z_score > threshold]: a NULL z-score is not
    greater than anything. *)
Definition joined (threshold : Qc) (r : daily_cost_row) (st : stats_row) : list anomaly_row :=
  if decide (row_project_id r = stats_project_id st /\
             row_service_name r = stats_service_name st) then
    match z_score r st, stddev_cost st with
    | Some z, Some sd =>
        if Qc_ltb threshold z then
          [ {| row_UsageDate := usage_date r;
               row_ProjectID := row_project_id r;
               row_ServiceName := row_service_name r;
               row_ActualCost := daily_cost r;
               row_ExpectedCost := avg_cost st;
               row_StddevCost := sd;
               row_ZScore := z |} ]
        else []
    | _, _ => []
    end
  else [].

Definition anomaly_query (sqrt : Qc -> Qc) (tbl : list BillingRow) (today days : Z)
    (threshold : Qc) : list anomaly_row :=
  ORDER_BY (fun a b => Qc_leb (row_ZScore b) (row_ZScore a))
    (r ← recent_costs tbl today;
     st ← stats sqrt tbl today days;
     joined threshold r st).

(** The nearest integer, ties to even. *)
Definition round_half_even (q : Q) : Z :=
  let f := Qfloor q in
  match (q - inject_Z f ?= 1 # 2)%Q with
  | Lt => f
  | Gt => (f + 1)%Z
  | Eq => if Z.even f then f else (f + 1)%Z
  end.

(** The number that the text [%f] writes for a finite value denotes:
    the value rounded to six decimals. *)
Definition Sprintf_f (x : Qc) : Qc :=
  Q2Qc (round_half_even (this x * 1000000) # 1000000).

(** [if row.ZScore > 3 { "High" } else if row.ZScore > 2 { "Medium" }
    else { "Low" }] *)
Definition severity (ZScore : float64) : string :=
  if flt (Fin (Q2Qc 3)) ZScore then "High"
  else if flt (Fin (Q2Qc 2)) ZScore then "Medium"
  else "Low".

(** [((row.ActualCost - row.ExpectedCost) / row.ExpectedCost) * 100] *)
Definition deviationPct (ActualCost ExpectedCost : float64) : float64 :=
  fmul (fdiv (fsub ActualCost ExpectedCost) ExpectedCost) (Fin (Q2Qc 100)).

(** The body of the loop: [it.Next] loads the columns of a row into
    [float64] fields, and the row becomes an [Anomaly]. *)
Definition anomaly_of_row (row : anomaly_row) : Anomaly :=
  {| anomaly_Date := row_UsageDate row;
     ProjectID := row_ProjectID row;
     ServiceName := row_ServiceName row;
     ActualCost := Fin (row_ActualCost row);
     ExpectedCost := Fin (row_ExpectedCost row);
     DeviationPct := deviationPct (Fin (row_ActualCost row)) (Fin (row_ExpectedCost row));
     Severity := severity (Fin (row_ZScore row)) |}.

(** [threshold] reaches the query through [%f]: a finite one as a
    number of six decimals; a NaN or an infinity as [NaN], [+Inf] or
    [-Inf], which is no SQL literal, so that the query is refused. *)
Definition DetectAnomalies (ca : CostAnalytics) (days : Z) (threshold : float64)
    : result (list Anomaly) :=
  let bq := bqClient ca in
  match Read bq with
  | Err e => Err ("failed to execute anomaly query: " ++ e)
  | Ok tbl =>
      match threshold with
      | Fin t =>
          Ok (map anomaly_of_row
                (anomaly_query (SQRT bq) tbl (CURRENT_DATE bq) days (Sprintf_f t)))
      | _ => Err ("failed to execute anomaly query: " ++ invalid_query bq)
      end
  end.

(** *** ForecastCosts *)

(** The first loop: [sumX], [sumY], [sumXY] and [sumX2]. *)
Definition regression_sums (trends : list CostTrend)
    : float64 * float64 * float64 * float64 :=
  fold_left
    (fun '(sumX, sumY, sumXY, sumX2) '(i, trend) =>
       let x := float64_of_int (Z.of_nat i) in
       let y := TotalCost trend in
       (fadd sumX x, fadd sumY y, fadd sumXY (fmul x y), fadd sumX2 (fmul x x)))
    (imap pair trends)
    (Fin 0, Fin 0, Fin 0, Fin 0).

(** [slope] and [intercept] *)
Definition regression (trends : list CostTrend) : float64 * float64 :=
  let n := float64_of_int (Z.of_nat (length trends)) in
  let '(sumX, sumY, sumXY, sumX2) := regression_sums trends in
  let slope :=
    fdiv (fsub (fmul n sumXY) (fmul sumX sumY))
         (fsub (fmul n sumX2) (fmul sumX sumX)) in
  let intercept := fdiv (fsub sumY (fmul slope sumX)) n in
  (slope, intercept).

(** The Go zero value. *)
Definition zero_CostTrend : CostTrend :=
  {| Date := 0; TotalCost := Fin 0; ServiceCost := ∅; ProjectCost := ∅ |}.

(** [trends[len(trends)-1]]; the index is in range where it is used,
    after the check of the length. *)
Definition last_trend (trends : list CostTrend) : CostTrend :=
  default zero_CostTrend (last trends).

(** The body of the second loop, for one [i]. *)
Definition forecast_point (trends : list CostTrend) (slope intercept : float64) (i : Z)
    : CostTrend :=
  let x := float64_of_int (Z.of_nat (length trends) + i - 1) in
  let predictedCost := fadd (fmul slope x) intercept in
  let predictedCost :=
    if flt predictedCost (Fin 0)
    then fmul (TotalCost (last_trend trends)) (Fin (Q2Qc 0.9))
    else predictedCost in
  {| Date := (Date (last_trend trends) + i)%Z;
     TotalCost := predictedCost;
     ServiceCost := ∅;
     ProjectCost := ∅ |}.

(** [days] is an [int]; the loop [for i := 1; i <= days; i++] runs for
    [i = 1, ..., days], and not at all when [days <= 0].  The counter
    stays in the range of [int] for every horizon whose forecast fits
    in memory, so that it is an integer here. *)
Definition ForecastCosts (ca : CostAnalytics) (days : Z) : result (list CostTrend) :=
  match GetCostTrends ca 30 with
  | Err e => Err e
  | Ok trends =>
      if (Z.of_nat (length trends) <? 7)%Z then
        Err "insufficient data for forecasting"
      else
        let '(slope, intercept) := regression trends in
        Ok (map (forecast_point trends slope intercept) (seqZ 1 days))
  end.

(** ** The words of the specification *)

(** The sum of the values of a breakdown map. *)
Definition map_total (m : gmap string float64) : float64 :=
  map_fold (fun _ v acc => fadd v acc) (Fin 0) m.

(** The historical daily-cost samples of a (project, service) pair: the
    daily costs of the pair in the window the baseline is taken from. *)
Definition samples (tbl : list BillingRow) (today days : Z) (p s : string) : list Qc :=
  map daily_cost
    (filter (fun h => (row_project_id h, row_service_name h) = (p, s))
       (baseline_window tbl today days)).

(** The sum of a sequence, taken from left to right. *)
Definition fsum (l : list float64) : float64 := fold_left fadd l (Fin 0).

(** The zero-based indices of [n] points. *)
Definition indices (n : nat) : list float64 :=
  map (fun i => float64_of_int (Z.of_nat i)) (seq 0 n).

(** Ordinary least squares of [ys] against their indices, in closed
    form from the five sums. *)
Definition ols_slope (ys : list float64) : float64 :=
  let n := float64_of_int (Z.of_nat (length ys)) in
  let xs := indices (length ys) in
  let Sx := fsum xs in
  let Sy := fsum ys in
  let Sxy := fsum (zip_with fmul xs ys) in
  let Sxx := fsum (map (fun x => fmul x x) xs) in
  fdiv (fsub (fmul n Sxy) (fmul Sx Sy)) (fsub (fmul n Sxx) (fmul Sx Sx)).

Definition ols_intercept (ys : list float64) : float64 :=
  let n := float64_of_int (Z.of_nat (length ys)) in
  fdiv (fsub (fsum ys) (fmul (ols_slope ys) (fsum (indices (length ys))))) n.

(** The values of the zero-based indices of [n] points. *)
Definition index_values (n : nat) : list Qc :=
  map (fun i => Qc_of_Z (Z.of_nat i)) (seq 0 n).

(** The points [(i, y_i)] that the regression is fitted to. *)
Definition points (ys : list Qc) : list (Qc * Qc) :=
  zip (index_values (length ys)) ys.

(** The sum of the squared residuals of the line [m * x + b]. *)
Definition sse (m b : Qc) (pts : list (Qc * Qc)) : Qc :=
  total (map (fun p => (p.2 - (m * p.1 + b)) * (p.2 - (m * p.1 + b)))%Qc pts).

(** The floor rule: a negative prediction gives way to 90% of the last
    historical total. *)
Definition floored (last_total predicted : float64) : float64 :=
  if flt predicted (Fin 0) then fmul last_total (Fin (Q2Qc 0.9)) else predicted.


(** A forecast point carries a date and a total, and no breakdown. *)
Definition ForecastPoint (date : Z) (totalCost : float64) : CostTrend :=
  {| Date := date; TotalCost := totalCost; ServiceCost := ∅; ProjectCost := ∅ |}.

(** ** Decidable equality, to evaluate the service on concrete tables *)

Global Instance float64_eq_dec : EqDecision float64.
Proof. solve_decision. Defined.
Global Instance CostTrend_eq_dec : EqDecision CostTrend.
Proof. solve_decision. Defined.
Global Instance Anomaly_eq_dec : EqDecision Anomaly.
Proof. solve_decision. Defined.
Global Instance result_eq_dec {A : Type} `{EqDecision A} : EqDecision (result A).
Proof. solve_decision. Defined.

(** ** Scenarios *)

(** The first instant of day [d]. *)
Definition at_day (d : Z) : Z := (d * 86400000000)%Z.

Definition billed (d : Z) (p s : string) (c : Qc) (cr : list Qc) : BillingRow :=
  {| usage_start_time := at_day d;
     project_id := p;
     service_description := s;
     cost := c;
     credits := cr |}.

(** A rational square root, rounded down to a multiple of [10^-6], to
    run the anomaly query on concrete tables. *)
Definition sqrt_floor (q : Qc) : Qc :=
  Q2Qc (Z.sqrt (Qnum (this q) * 1000000000000 / Z.pos (Qden (this q))) # 1000000).

Definition warehouse (tbl : list BillingRow) (today : Z) : CostAnalytics :=
  {| bqClient := {| table := tbl;
                    CURRENT_DATE := today;
                    SQRT := sqrt_floor;
                    read_error := None;
                    invalid_query := "Unrecognized name" |} |}.

(** Two projects that use the same service on the same day. *)
Definition shared_service : CostAnalytics :=
  warehouse [ billed 99 "alpha" "Compute Engine" (Q2Qc 1) [];
              billed 99 "beta" "Compute Engine" (Q2Qc 2) [] ] 100.

(** One pair, billed [costs] on the days from [d0] on. *)
Definition daily (d0 : Z) (p s : string) (costs : list Z) : list BillingRow :=
  imap (fun i c => billed (d0 + Z.of_nat i) p s (Qc_of_Z c) []) costs.

(** Seven days of history and a spike on the day before day 100. *)
Definition spike : CostAnalytics :=
  warehouse (daily 92 "P" "S" [10; 12; 9; 11; 10; 13; 8; 40]%Z) 100.


(** Seven identical days and a spike. *)
Definition flat_history : CostAnalytics :=
  warehouse (daily 92 "P" "S" [10; 10; 10; 10; 10; 10; 10; 50]%Z) 100.

(** Seven days whose costs, net of credits and refunds, average to
    zero, and a spike. *)
Definition zero_mean : CostAnalytics :=
  warehouse (daily 92 "P" "S" [-3; -2; -1; 0; 1; 2; 3; 50]%Z) 100.

(** Ten days whose totals start at [a] and rise by 5 a day. *)
Definition rising (a : Z) : CostAnalytics :=
  warehouse (daily 90 "P" "S" (map (fun i => a + 5 * i)%Z (seqZ 0 10))) 100.

(** Seven days that fall, the last one below zero. *)
Definition falling : CostAnalytics :=
  warehouse (daily 93 "P" "S" [60; 50; 40; 30; 20; 10; -10]%Z) 100.


(** ** Further words and scenarios *)

(** The order of the severities: Low, Medium, High. *)
Definition severity_rank (s : string) : nat :=
  if decide (s = "High") then 3
  else if decide (s = "Medium") then 2
  else if decide (s = "Low") then 1
  else 0.

(** A table with credits: on day 99 "alpha" spends 10 on "Compute
    Engine", with credits of -3 and -1, and 4 on "Cloud Storage"; on
    day 98 "beta" spends 7 on "Compute Engine" with a credit of -7. *)
Definition with_credits : CostAnalytics :=
  warehouse [ billed 99 "alpha" "Compute Engine" (Q2Qc 10) [Q2Qc (-3); Q2Qc (-1)];
              billed 98 "beta" "Compute Engine" (Q2Qc 7) [Q2Qc (-7)];
              billed 99 "alpha" "Cloud Storage" (Q2Qc 4) [] ] 100.


(** Two pairs with seven days of history each: a strong spike for
    "P" and "S", and a mild one for "Q" and "T", which comes first in
    the table. *)
Definition two_spikes : CostAnalytics :=
  warehouse (daily 92 "Q" "T" [10; 12; 9; 11; 10; 13; 8; 14]%Z ++
             daily 92 "P" "S" [10; 12; 9; 11; 10; 13; 8; 40]%Z) 100.

(** Seven days that fall and stay above zero. *)
Definition sinking : CostAnalytics :=
  warehouse (daily 93 "P" "S" [60; 50; 40; 30; 20; 10; 5]%Z) 100.

(** ** The dashboard in Google Sheets *)

(** A cell of a sheet: an [interface{}] that holds a [string] or a
    [float64]. *)
Inductive cell : Type :=
| Text (s : string)
| Number (x : float64).

(** One call of [Spreadsheets.Values.Update(spreadsheetID, range,
    valueRange).ValueInputOption("RAW").Do()]. *)
Record UpdateCall : Type := {
  call_spreadsheetID : string;
  call_range : string;
  call_values : list (list cell)
}.

(** The Sheets client stands for the service it talks to: [Do] is the
    error, if any, that a call returns after the calls made so far. *)
Record SheetsService : Type := {
  Do : list UpdateCall -> UpdateCall -> option string
}.

(** What the rest of the file uses of the Go library: the order in
    which the [i]-th [range] over a map visits its entries, which Go
    leaves open; the text of a date in the layout ["2006-01-02"]; the
    digits of a finite number with a given count of decimals; and
    [strconv.ParseFloat(s, 64)]. *)
Record Go : Type := {
  range : nat -> gmap string float64 -> list (string * float64);
  Format : Z -> string;
  FormatFloat : nat -> Qc -> string;
  ParseFloat : string -> option float64
}.

(** [fmt.Sprintf] with the verb [%.<prec>f]: a NaN and the infinities
    are written by name. *)
Definition Sprintf_prec (go : Go) (prec : nat) (x : float64) : string :=
  match x with
  | Fin q => FormatFloat go prec q
  | PInf => "+Inf"
  | NInf => "-Inf"
  | NaN => "NaN"
  end.

(** The text that [DetectAnomalies] stores in the [Description] of a
    finding, formatted from its other fields. *)
Definition Description (go : Go) (a : Anomaly) : string :=
  "Cost spike detected for " ++ ServiceName a ++ " in project " ++ ProjectID a
  ++ ". Expected: $" ++ Sprintf_prec go 2 (ExpectedCost a)
  ++ ", Actual: $" ++ Sprintf_prec go 2 (ActualCost a).

(** [topService := ""; topCost := 0.0;
    for service, cost := range trend.ServiceCost
      { if cost > topCost { topService = service; topCost = cost } }] *)
Definition top_service (entries : list (string * float64)) : string * float64 :=
  fold_left
    (fun '(topService, topCost) '(service, cost) =>
       if flt topCost cost then (service, cost) else (topService, topCost))
    entries ("", Fin 0).

Definition trend_cells (go : Go) (i : nat) (trend : CostTrend) : list cell :=
  let '(topService, topCost) := top_service (range go i (ServiceCost trend)) in
  [ Text (Format go (Date trend)); Number (TotalCost trend);
    Text topService; Number topCost ].

Definition trendValues (go : Go) (trends : list CostTrend) : list (list cell) :=
  [ Text "Date"; Text "Total Cost"; Text "Top Service"; Text "Top Service Cost" ]
  :: imap (trend_cells go) trends.

Definition anomaly_cells (go : Go) (anomaly : Anomaly) : list cell :=
  [ Text (Format go (anomaly_Date anomaly));
    Text (ProjectID anomaly);
    Text (ServiceName anomaly);
    Number (ActualCost anomaly);
    Number (ExpectedCost anomaly);
    Text (Sprintf_prec go 1 (DeviationPct anomaly) ++ "%");
    Text (Severity anomaly);
    Text (Description go anomaly) ].

Definition anomalyValues (go : Go) (anomalies : list Anomaly) : list (list cell) :=
  [ Text "Date"; Text "Project"; Text "Service"; Text "Actual Cost";
    Text "Expected Cost"; Text "Deviation %"; Text "Severity"; Text "Description" ]
  :: map (anomaly_cells go) anomalies.

(** The two calls: [Update(spreadsheetID, "Trends!A1", trendsVR)] and
    [Update(spreadsheetID, "Anomalies!A1", anomaliesVR)]. *)
Definition trendsUpdate (go : Go) (spreadsheetID : string) (trends : list CostTrend)
    : UpdateCall :=
  {| call_spreadsheetID := spreadsheetID;
     call_range := "Trends!A1";
     call_values := trendValues go trends |}.

Definition anomaliesUpdate (go : Go) (spreadsheetID : string) (anomalies : list Anomaly)
    : UpdateCall :=
  {| call_spreadsheetID := spreadsheetID;
     call_range := "Anomalies!A1";
     call_values := anomalyValues go anomalies |}.

(** [UpdateGoogleSheets]: [calls] are the calls made before; the
    result comes with the calls made after.  The second call is made
    when the first has returned no error. *)
Definition UpdateGoogleSheets (go : Go) (sheetsClient : SheetsService)
    (calls : list UpdateCall) (spreadsheetID : string)
    (trends : list CostTrend) (anomalies : list Anomaly)
    : list UpdateCall * result unit :=
  let trendsVR := trendsUpdate go spreadsheetID trends in
  match Do sheetsClient calls trendsVR with
  | Some err => (calls ++ [trendsVR], Err ("failed to update trends sheet: " ++ err))
  | None =>
      let calls := calls ++ [trendsVR] in
      let anomaliesVR := anomaliesUpdate go spreadsheetID anomalies in
      match Do sheetsClient calls anomaliesVR with
      | Some err =>
          (calls ++ [anomaliesVR], Err ("failed to update anomalies sheet: " ++ err))
      | None => (calls ++ [anomaliesVR], Ok tt)
      end
  end.

(** ** The HTTP handlers *)

(** [r.URL.Query().Get(key)]: a query holds the first value of every
    key; [Get] gives the empty text for a key that is not there. *)
Definition Get (query : gmap string string) (key : string) : string :=
  default "" (query !! key).

(** The value of a decimal digit. *)
Definition digit (c : ascii) : option Z :=
  let n := Z.of_N (N_of_ascii c) in
  if decide (48 <= n <= 57)%Z then Some (n - 48)%Z else None.

Fixpoint digits (s : string) (acc : Z) : option Z :=
  match s with
  | EmptyString => Some acc
  | String c s' =>
      match digit c with
      | Some d => digits s' (10 * acc + d)%Z
      | None => None
      end
  end.

(** [strconv.Atoi]: an optional sign and one decimal digit or more, of
    a value in the range of a 64-bit [int]; anything else is an error. *)
Definition Atoi (s : string) : option Z :=
  let '(neg, s') :=
    match s with
    | String "+"%char s' => (false, s')
    | String "-"%char s' => (true, s')
    | _ => (false, s)
    end in
  if decide (s' = "") then None
  else match digits s' 0 with
       | Some n =>
           let v := if neg : bool then (- n)%Z else n in
           if decide (- 2 ^ 63 <= v < 2 ^ 63)%Z then Some v else None
       | None => None
       end.

(** What a handler has written when it returns: the text of
    [http.Error]; the JSON of a value; [null], the JSON of a [nil]
    slice; or nothing, after an [Encode] that failed. *)
Inductive Body : Type :=
| Plain (text : string)
| JSON_trends (trends : list CostTrend)
| JSON_anomalies (anomalies : list Anomaly)
| JSON_status (status : string)
| JSON_null
| Nothing.

Record Response : Type := {
  StatusCode : Z;
  body : Body
}.

(** [http.Error(w, error, code)] *)
Definition Error (error : string) (code : Z) : Response :=
  {| StatusCode := code; body := Plain error |}.

(** [encoding/json] refuses a NaN and the infinities, and a
    [time.Time] refuses to be encoded when its year is outside
    [0, 9999]: before 1 January of the year 0 or after 31 December
    9999, counted in days from 1 January 1970. *)
Definition json_number (x : float64) : bool := is_finite x.

Definition json_time (d : Z) : bool := bool_decide (-719528 <= d <= 2932896)%Z.

Definition json_CostTrend (t : CostTrend) : bool :=
  json_time (Date t)
  && json_number (TotalCost t)
  && bool_decide (map_Forall (fun _ v => json_number v = true) (ServiceCost t))
  && bool_decide (map_Forall (fun _ v => json_number v = true) (ProjectCost t)).

Definition json_Anomaly (a : Anomaly) : bool :=
  json_time (anomaly_Date a)
  && json_number (ActualCost a) && json_number (ExpectedCost a)
  && json_number (DeviationPct a).

(** [w.Header().Set("Content-Type", "application/json");
    json.NewEncoder(w).Encode(v)], whose error the handlers drop: the
    slices of this service are [nil] when they are empty; an [Encode]
    that fails writes nothing, and the server answers 200 for a
    handler that returns without a status. *)
Definition Encode {A : Type} (json : A -> bool) (JSON : list A -> Body) (v : list A)
    : Response :=
  {| StatusCode := 200;
     body := match v with
             | [] => JSON_null
             | _ => if forallb json v then JSON v else Nothing
             end |}.

(** [days := def; if daysStr != "" { if d, err := strconv.Atoi(daysStr);
    err == nil { days = d } }] *)
Definition days_parameter (daysStr : string) (def : Z) : Z :=
  if decide (daysStr = "") then def
  else match Atoi daysStr with
       | Some d => d
       | None => def
       end.

Definition handleGetTrends (ca : CostAnalytics) (query : gmap string string)
    : Response :=
  let days := days_parameter (Get query "days") 30 in
  match GetCostTrends ca days with
  | Err err => Error err 500
  | Ok trends => Encode json_CostTrend JSON_trends trends
  end.

(** [threshold := 2.0; if thresholdStr != "" { if t, err :=
    strconv.ParseFloat(thresholdStr, 64); err == nil { threshold = t } }] *)
Definition threshold_parameter (go : Go) (thresholdStr : string) : float64 :=
  if decide (thresholdStr = "") then Fin (Q2Qc 2)
  else match ParseFloat go thresholdStr with
       | Some t => t
       | None => Fin (Q2Qc 2)
       end.

Definition handleGetAnomalies (go : Go) (ca : CostAnalytics)
    (query : gmap string string) : Response :=
  let threshold := threshold_parameter go (Get query "threshold") in
  match DetectAnomalies ca 30 threshold with
  | Err err => Error err 500
  | Ok anomalies => Encode json_Anomaly JSON_anomalies anomalies
  end.

Definition handleGetForecast (ca : CostAnalytics) (query : gmap string string)
    : Response :=
  let days := days_parameter (Get query "days") 7 in
  match ForecastCosts ca days with
  | Err err => Error err 500
  | Ok forecast => Encode json_CostTrend JSON_trends forecast
  end.

(** [handleUpdateSheets], with the calls the Sheets service has seen
    before and after. *)
Definition handleUpdateSheets (go : Go) (sheetsClient : SheetsService)
    (ca : CostAnalytics) (calls : list UpdateCall) (query : gmap string string)
    : list UpdateCall * Response :=
  let spreadsheetID := Get query "spreadsheet_id" in
  if decide (spreadsheetID = "") then
    (calls, Error "spreadsheet_id parameter required" 400)
  else
    match GetCostTrends ca 30 with
    | Err err => (calls, Error err 500)
    | Ok trends =>
        match DetectAnomalies ca 30 (Fin (Q2Qc 2)) with
        | Err err => (calls, Error err 500)
        | Ok anomalies =>
            match
              UpdateGoogleSheets go sheetsClient calls spreadsheetID trends anomalies
            with
            | (calls, Err err) => (calls, Error err 500)
            | (calls, Ok _) =>
                (calls, {| StatusCode := 200; body := JSON_status "updated" |})
            end
        end
    end.

(** ** A Go library and a Sheets service to run the scenarios with *)

(** The decimal digits of [n >= 0]. *)
Fixpoint decimal (fuel : nat) (n : Z) (acc : string) : string :=
  match fuel with
  | O => acc
  | S fuel =>
      let acc := String (ascii_of_N (Z.to_N (48 + n mod 10))) acc in
      if (n <? 10)%Z then acc else decimal fuel (n / 10)%Z acc
  end.

Definition Itoa (n : Z) : string := decimal (S (Z.to_nat (Z.log2 n))) n "".

(** The same with zeros in front, up to [width] digits. *)
Definition padded (width : nat) (n : Z) : string :=
  let s := Itoa n in
  Nat.iter (width - String.length s) (String "0") s.

(** The year, month and day of the day [z] after 1 January 1970. *)
Definition civil (z : Z) : Z * Z * Z :=
  let z := (z + 719468)%Z in
  let era := (z / 146097)%Z in
  let doe := (z - era * 146097)%Z in
  let yoe := ((doe - doe / 1460 + doe / 36524 - doe / 146096) / 365)%Z in
  let doy := (doe - (365 * yoe + yoe / 4 - yoe / 100))%Z in
  let mp := ((5 * doy + 2) / 153)%Z in
  let d := (doy - (153 * mp + 2) / 5 + 1)%Z in
  let m := (if mp <? 10 then mp + 3 else mp - 9)%Z in
  let y := (yoe + era * 400 + (if m <=? 2 then 1 else 0))%Z in
  (y, m, d).

Definition iso_date (z : Z) : string :=
  let '(y, m, d) := civil z in
  padded 4 y ++ "-" ++ padded 2 m ++ "-" ++ padded 2 d.

(** A number with [prec] decimals, rounded half to even. *)
Definition fixed (prec : nat) (q : Qc) : string :=
  let scale := (10 ^ Z.of_nat prec)%Z in
  let n := round_half_even (this (ABS q) * inject_Z scale) in
  (if Qc_ltb q 0 then "-" else "")
  ++ Itoa (n / scale)
  ++ (if decide (prec = 0%nat) then "" else "." ++ padded prec (n mod scale)).

(** A library that visits a map in the order of [map_to_list], and
    whose [ParseFloat] reads integers and ["NaN"]. *)
Definition golang : Go :=
  {| range := fun _ m => map_to_list m;
     Format := iso_date;
     FormatFloat := fixed;
     ParseFloat := fun s =>
       if decide (s = "NaN") then Some NaN
       else match Atoi s with
            | Some z => Some (Fin (Qc_of_Z z))
            | None => None
            end |}.

(** A service that accepts every call; one that has no sheet for the
    anomalies; and one that refuses every call. *)
Definition accepting : SheetsService := {| Do := fun _ _ => None |}.

Definition no_anomalies_sheet : SheetsService :=
  {| Do := fun _ c =>
       if decide (call_range c = "Anomalies!A1")
       then Some "Unable to parse range: Anomalies!A1" else None |}.

Definition refusing : SheetsService :=
  {| Do := fun _ _ => Some "The caller does not have permission" |}.

Global Instance cell_eq_dec : EqDecision cell.
Proof. solve_decision. Defined.
Global Instance UpdateCall_eq_dec : EqDecision UpdateCall.
Proof. solve_decision. Defined.
Global Instance Body_eq_dec : EqDecision Body.
Proof. solve_decision. Defined.
Global Instance Response_eq_dec : EqDecision Response.
Proof. solve_decision. Defined.

(** The library [go] with another order of visiting maps. *)
Definition with_range (go : Go)
    (order : nat -> gmap string float64 -> list (string * float64)) : Go :=
  {| range := order;
     Format := Format go;
     FormatFloat := FormatFloat go;
     ParseFloat := ParseFloat go |}.

(** An order that visits the entries of the map [m] as [entries], and
    those of every other map in the order of their keys. *)
Definition visiting (m : gmap string float64) (entries : list (string * float64))
    : nat -> gmap string float64 -> list (string * float64) :=
  fun _ m' => if decide (m' = m) then entries else map_to_list m'.

(** The trends and the findings of a scenario. *)
Definition trends_of (ca : CostAnalytics) (days : Z) : list CostTrend :=
  match GetCostTrends ca days with Ok trends => trends | Err _ => [] end.

Definition findings_of (ca : CostAnalytics) (days : Z) (threshold : float64)
    : list Anomaly :=
  match DetectAnomalies ca days threshold with Ok anomalies => anomalies | Err _ => [] end.

(** * Properties *)

(** ** Arithmetic of [Qc] *)

Lemma Qc_ltb_lt (a b : Qc) : Qc_ltb a b = true <-> (a < b)%Qc.
Proof. unfold Qc_ltb. apply bool_decide_eq_true. Qed.

Lemma Qc_ltb_ge (a b : Qc) : Qc_ltb a b = false <-> (b <= a)%Qc.
Proof.
  unfold Qc_ltb. rewrite bool_decide_eq_false. split.
  - apply Qcnot_lt_le.
  - apply Qcle_not_lt.
Qed.

Lemma Qc_eqb_eq (a b : Qc) : Qc_eqb a b = true <-> a = b.
Proof. unfold Qc_eqb. apply bool_decide_eq_true. Qed.

Lemma Qc_eqb_neq (a b : Qc) : Qc_eqb a b = false <-> a <> b.
Proof. unfold Qc_eqb. apply bool_decide_eq_false. Qed.

Lemma this_plus (a b : Qc) : (this (a + b)%Qc == this a + this b)%Q.
Proof. apply Qred_correct. Qed.

Lemma this_mult (a b : Qc) : (this (a * b)%Qc == this a * this b)%Q.
Proof. apply Qred_correct. Qed.

Lemma this_opp (a : Qc) : (this (- a)%Qc == - this a)%Q.
Proof. apply Qred_correct. Qed.

Lemma this_minus (a b : Qc) : (this (a - b)%Qc == this a - this b)%Q.
Proof. unfold Qcminus. now rewrite this_plus, this_opp. Qed.

Lemma this_inv (a : Qc) : (this (/ a)%Qc == / this a)%Q.
Proof. apply Qred_correct. Qed.

Lemma this_div (a b : Qc) : (this (a / b)%Qc == this a / this b)%Q.
Proof. unfold Qcdiv. now rewrite this_mult, this_inv. Qed.

Lemma this_Q2Qc (q : Q) : (this (Q2Qc q) == q)%Q.
Proof. apply Qred_correct. Qed.

Lemma this_of_Z (z : Z) : this (Qc_of_Z z) = inject_Z z.
Proof. reflexivity. Qed.

Create Rewrite HintDb qc2q.
#[local] Hint Rewrite this_plus this_minus this_mult this_div this_opp this_inv
  this_Q2Qc this_of_Z : qc2q.

(** An equation or an order between [Qc] expressions, as the same
    between their values in [Q]. *)
Ltac qc_to_q :=
  try apply Qc_is_canon;
  unfold Qcle, Qclt in *;
  autorewrite with qc2q in *.

(** Closed integer numerals, for [ring], [field] and [lra] over [Q]. *)
Ltac q_numerals :=
  repeat match goal with
         | |- context [inject_Z ?z] =>
             let z' := eval vm_compute in z in change (inject_Z z) with (Qmake z' 1)
         | H : context [inject_Z ?z] |- _ =>
             let z' := eval vm_compute in z in change (inject_Z z) with (Qmake z' 1) in H
         end.

Lemma fdiv_finite (a b : Qc) : b <> Q2Qc 0 -> fdiv (Fin a) (Fin b) = Fin (a / b).
Proof. intros Hb. unfold fdiv. apply Qc_eqb_neq in Hb. now rewrite Hb. Qed.

(** ** Sums *)

Lemma total_nil : total [] = Q2Qc 0.
Proof. reflexivity. Qed.

Lemma total_cons (x : Qc) (l : list Qc) : total (x :: l) = (x + total l)%Qc.
Proof. reflexivity. Qed.

Lemma Qc_of_Z_succ (z : Z) : Qc_of_Z (z + 1) = (Qc_of_Z z + Q2Qc 1)%Qc.
Proof.
  qc_to_q. unfold inject_Z, Qeq, Qplus. cbn. lia.
Qed.

Lemma Qc_of_Z_nonzero (z : Z) : z <> 0%Z -> Qc_of_Z z <> Q2Qc 0.
Proof.
  intros Hz Heq. apply (f_equal this) in Heq. cbn in Heq.
  injection Heq as Heq. contradiction.
Qed.

Lemma total_constant (c : Qc) (l : list Qc) :
  (forall x, x ∈ l -> x = c) -> total l = (Qc_of_Z (COUNT l) * c)%Qc.
Proof.
  unfold COUNT. induction l as [|x l IH]; intros Hall.
  - cbn [total foldr length]. qc_to_q. q_numerals. ring.
  - cbn [total foldr length]. fold (total l).
    rewrite IH by (intros y Hy; apply Hall; now right).
    rewrite (Hall x) by now left.
    rewrite Nat2Z.inj_succ, <- Z.add_1_r, Qc_of_Z_succ. ring.
Qed.

(** ** GetCostTrends *)

Lemma map_total_singleton (k : string) (v : Qc) :
  map_total {[ k := Fin v ]} = Fin v.
Proof.
  unfold map_total. rewrite map_fold_singleton. cbn. f_equal. ring.
Qed.

(** Two entries under one key: whichever comes last is what the map
    holds, so that the order in which [ARRAY_AGG] delivers them only
    decides which of the two costs is lost. *)
Lemma costs_map_same_key (k : string) (c1 c2 : Qc) :
  costs_map [(k, c1); (k, c2)] = {[ k := Fin c2 ]} /\
  map_total (costs_map [(k, c1); (k, c2)]) = Fin c2.
Proof.
  assert (E : costs_map [(k, c1); (k, c2)] = {[ k := Fin c2 ]}).
  { unfold costs_map. cbn [fold_left fst snd]. rewrite insert_insert_eq.
    apply insert_empty. }
  split; [exact E|]. rewrite E. apply map_total_singleton.
Qed.

Lemma GetCostTrends_finite (ca : CostAnalytics) (days : Z) (trends : list CostTrend) :
  GetCostTrends ca days = Ok trends ->
  exists ys : list Qc, map TotalCost trends = map Fin ys.
Proof.
  unfold GetCostTrends. destruct (Read (bqClient ca)) as [tbl|e]; [|discriminate].
  intros [= <-].
  exists (map DailyTotal (aggregated_costs tbl (CURRENT_DATE (bqClient ca)) days)).
  rewrite !map_map. reflexivity.
Qed.


(** ** ForecastCosts *)

Lemma regression_sums_from (k : nat) (l : list CostTrend) (sx sy sxy sxx : float64) :
  let xs := map (fun i => float64_of_int (Z.of_nat i)) (seq k (length l)) in
  let ys := map TotalCost l in
  fold_left
    (fun '(sumX, sumY, sumXY, sumX2) '(i, trend) =>
       let x := float64_of_int (Z.of_nat i) in
       let y := TotalCost trend in
       (fadd sumX x, fadd sumY y, fadd sumXY (fmul x y), fadd sumX2 (fmul x x)))
    (imap (fun i t => ((k + i)%nat, t)) l)
    (sx, sy, sxy, sxx)
  = (fold_left fadd xs sx,
     fold_left fadd ys sy,
     fold_left fadd (zip_with fmul xs ys) sxy,
     fold_left fadd (map (fun x => fmul x x) xs) sxx).
Proof.
  revert k sx sy sxy sxx.
  induction l as [|t l IH]; intros k sx sy sxy sxx; [reflexivity|].
  cbn [imap length seq map zip_with fold_left].
  rewrite Nat.add_0_r.
  rewrite (imap_ext _ (fun i t' => ((S k + i)%nat, t'))).
  - apply IH.
  - intros i x _. cbn. f_equal. lia.
Qed.

Lemma regression_sums_spec (trends : list CostTrend) :
  let xs := indices (length trends) in
  let ys := map TotalCost trends in
  regression_sums trends =
    (fsum xs, fsum ys, fsum (zip_with fmul xs ys), fsum (map (fun x => fmul x x) xs)).
Proof. apply (regression_sums_from 0). Qed.

(** The loop computes the closed form of the specification. *)
Lemma regression_ols (trends : list CostTrend) :
  regression trends =
    (ols_slope (map TotalCost trends), ols_intercept (map TotalCost trends)).
Proof.
  unfold regression. rewrite regression_sums_spec. cbn zeta.
  unfold ols_intercept, ols_slope. rewrite length_map. reflexivity.
Qed.

Lemma forecast_point_spec (trends : list CostTrend) (slope intercept : float64) (i : Z) :
  forecast_point trends slope intercept i =
    ForecastPoint (Date (last_trend trends) + i)
      (floored (TotalCost (last_trend trends))
         (fadd (fmul slope (float64_of_int (Z.of_nat (length trends) + i - 1)))
               intercept)).
Proof. reflexivity. Qed.

Lemma ForecastCosts_unfold (ca : CostAnalytics) (days : Z) (trends : list CostTrend) :
  GetCostTrends ca 30 = Ok trends ->
  ForecastCosts ca days =
    if (Z.of_nat (length trends) <? 7)%Z then Err "insufficient data for forecasting"
    else Ok (map (forecast_point trends (regression trends).1 (regression trends).2)
               (seqZ 1 days)).
Proof.
  intros H. unfold ForecastCosts. rewrite H.
  destruct (regression trends); reflexivity.
Qed.

Lemma ForecastCosts_enough (ca : CostAnalytics) (days : Z) (trends : list CostTrend) :
  GetCostTrends ca 30 = Ok trends ->
  7 <= length trends ->
  ForecastCosts ca days =
    Ok (map (forecast_point trends (regression trends).1 (regression trends).2)
          (seqZ 1 days)).
Proof.
  intros H Hlen. rewrite (ForecastCosts_unfold _ _ _ H).
  destruct (Z.ltb_spec (Z.of_nat (length trends)) 7); [lia | reflexivity].
Qed.

(** C6: with fewer than 7 historical points [ForecastCosts] fails with
    the insufficient-data error, whatever the horizon; with 7 or more
    it returns a forecast. *)
Theorem ForecastCosts_insufficient_data
    (ca : CostAnalytics) (days : Z) (trends : list CostTrend) :
  GetCostTrends ca 30 = Ok trends ->
  (length trends < 7 ->
     ForecastCosts ca days = Err "insufficient data for forecasting") /\
  (7 <= length trends ->
     exists forecasts, ForecastCosts ca days = Ok forecasts).
Proof.
  intros H. split; intros Hlen.
  - rewrite (ForecastCosts_unfold _ _ _ H).
    destruct (Z.ltb_spec (Z.of_nat (length trends)) 7); [reflexivity | lia].
  - eexists. exact (ForecastCosts_enough _ days _ H Hlen).
Qed.

Lemma ForecastCosts_insufficient_data_witness :
  ForecastCosts shared_service 3 = Err "insufficient data for forecasting" /\
  exists forecasts, ForecastCosts spike 3 = Ok forecasts.
Proof.
  split.
  - eapply ForecastCosts_insufficient_data; [vm_compute; reflexivity | vm_compute; lia].
  - eapply ForecastCosts_insufficient_data; [vm_compute; reflexivity | vm_compute; lia].
Defined.

(** *** Least squares *)

Lemma fold_left_fadd_Fin (l : list Qc) (a : Qc) :
  fold_left fadd (map Fin l) (Fin a) = Fin (a + total l).
Proof.
  revert a. induction l as [|x l IH]; intros a; cbn [map fold_left fadd].
  - rewrite total_nil. f_equal. ring.
  - rewrite IH, total_cons. f_equal. ring.
Qed.

Lemma fsum_Fin (l : list Qc) : fsum (map Fin l) = Fin (total l).
Proof. unfold fsum. now rewrite fold_left_fadd_Fin, Qcplus_0_l. Qed.

Lemma indices_values (n : nat) : indices n = map Fin (index_values n).
Proof. unfold indices, index_values. now rewrite map_map. Qed.

Lemma zip_with_fmul_Fin (xs ys : list Qc) :
  zip_with fmul (map Fin xs) (map Fin ys) = map Fin (zip_with Qcmult xs ys).
Proof.
  revert ys. induction xs as [|x xs IH]; intros [|y ys]; cbn; try reflexivity.
  now rewrite IH.
Qed.

Lemma total_app (l1 l2 : list Qc) : total (l1 ++ l2) = (total l1 + total l2)%Qc.
Proof.
  induction l1 as [|x l1 IH]; cbn [app].
  - rewrite total_nil. ring.
  - rewrite !total_cons, IH. ring.
Qed.

Lemma length_index_values (n : nat) : length (index_values n) = n.
Proof. unfold index_values. now rewrite length_map, length_seq. Qed.

Lemma index_values_S (n : nat) :
  index_values (S n) = index_values n ++ [Qc_of_Z (Z.of_nat n)].
Proof. unfold index_values. now rewrite seq_S, map_app. Qed.

(** The sums of the indices and of their squares, in closed form. *)
Lemma sum_index_values (n : nat) :
  let N := Qc_of_Z (Z.of_nat n) in
  (Q2Qc 2 * total (index_values n) = N * (N - Q2Qc 1))%Qc /\
  (Q2Qc 6 * total (map (fun x => x * x) (index_values n)) =
     (N - Q2Qc 1) * N * (Q2Qc 2 * N - Q2Qc 1))%Qc.
Proof.
  induction n as [|n [IH1 IH2]]; cbn zeta.
  - split; qc_to_q; q_numerals; reflexivity.
  - rewrite index_values_S, map_app, !total_app.
    cbn [map]. rewrite !total_cons, !total_nil.
    rewrite Nat2Z.inj_succ, <- Z.add_1_r, Qc_of_Z_succ.
    cbn zeta in IH1, IH2.
    set (N := Qc_of_Z (Z.of_nat n)) in *.
    set (Sx := total (index_values n)) in *.
    set (Sxx := total (map (fun x => x * x) (index_values n))%Qc) in *.
    split.
    + replace (Q2Qc 2 * (Sx + (N + Q2Qc 0)))%Qc
        with (Q2Qc 2 * Sx + Q2Qc 2 * N)%Qc by ring.
      rewrite IH1. qc_to_q. ring.
    + replace (Q2Qc 6 * (Sxx + (N * N + Q2Qc 0)))%Qc
        with (Q2Qc 6 * Sxx + Q2Qc 6 * (N * N))%Qc by ring.
      rewrite IH2. qc_to_q. ring.
Qed.

Lemma sse_decompose (m b s c : Qc) (pts : list (Qc * Qc)) :
  sse m b pts =
    (sse s c pts
     + Q2Qc 2 * (s - m) *
         (total (map (fun p => p.1 * p.2) pts)
          - s * total (map (fun p => p.1 * p.1) pts)
          - c * total (map fst pts))
     + Q2Qc 2 * (c - b) *
         (total (map snd pts)
          - s * total (map fst pts)
          - c * total (map (fun _ => Q2Qc 1) pts))
     + total (map (fun p => ((s - m) * p.1 + (c - b)) * ((s - m) * p.1 + (c - b))) pts))%Qc.
Proof.
  unfold sse. induction pts as [|[x y] pts IH]; cbn [map fst snd].
  - rewrite !total_nil. qc_to_q. ring.
  - rewrite !total_cons, IH. qc_to_q. ring.
Qed.

Lemma total_squares_nonnegative {A : Type} (f : A -> Qc) (l : list A) :
  (Q2Qc 0 <= total (map (fun a => f a * f a) l))%Qc.
Proof.
  induction l as [|a l IH]; cbn [map].
  - rewrite total_nil. apply Qcle_refl.
  - rewrite total_cons. qc_to_q. nra.
Qed.

(** The closed form solves the normal equations. *)
Lemma normal_equations (n Sx Sy Sxy Sxx : Qc) :
  n <> Q2Qc 0 ->
  (n * Sxx - Sx * Sx)%Qc <> Q2Qc 0 ->
  let s := ((n * Sxy - Sx * Sy) / (n * Sxx - Sx * Sx))%Qc in
  let c := ((Sy - s * Sx) / n)%Qc in
  (Sxy - s * Sxx - c * Sx = Q2Qc 0)%Qc /\ (Sy - s * Sx - c * n = Q2Qc 0)%Qc.
Proof.
  intros Hn HD s c. subst s c. split; field; auto.
Qed.

Lemma Qeq_this (p q : Q) : p = q -> (p == q)%Q.
Proof. now intros ->. Qed.

Lemma regression_denominator (n : nat) :
  2 <= n ->
  (Qc_of_Z (Z.of_nat n) * total (map (fun x => x * x) (index_values n))
   - total (index_values n) * total (index_values n))%Qc <> Q2Qc 0.
Proof.
  intros Hn HD.
  destruct (sum_index_values n) as [H1 H2]. cbn zeta in H1, H2.
  apply (f_equal this), Qeq_this in HD.
  apply (f_equal this), Qeq_this in H1.
  apply (f_equal this), Qeq_this in H2.
  autorewrite with qc2q in HD, H1, H2.
  assert (HN : (2 <= inject_Z (Z.of_nat n))%Q).
  { change 2%Q with (inject_Z 2). rewrite <- Zle_Qle. lia. }
  set (N := inject_Z (Z.of_nat n)) in *.
  set (Sx := this (total (index_values n))) in *.
  set (Sxx := this (total (map (fun x => x * x)%Qc (index_values n)))) in *.
  assert (E : (12 * (N * Sxx - Sx * Sx) == N * N * (N - 1) * (N + 1))%Q).
  { transitivity (2 * N * (6 * Sxx) - 3 * ((2 * Sx) * (2 * Sx)))%Q; [ring|].
    rewrite H1, H2. ring. }
  rewrite HD in E.
  assert (0 < N * N * (N - 1) * (N + 1))%Q by nra.
  lra.
Qed.

Lemma points_fst (ys : list Qc) : map fst (points ys) = index_values (length ys).
Proof. unfold points. apply fst_zip. now rewrite length_index_values. Qed.

Lemma points_snd (ys : list Qc) : map snd (points ys) = ys.
Proof. unfold points. apply snd_zip. now rewrite length_index_values. Qed.

Lemma points_products (ys : list Qc) :
  map (fun p => p.1 * p.2)%Qc (points ys) =
    zip_with Qcmult (index_values (length ys)) ys.
Proof.
  unfold points. rewrite (zip_with_zip Qcmult). apply map_ext. now intros [x y].
Qed.

Lemma points_squares (ys : list Qc) :
  map (fun p => p.1 * p.1)%Qc (points ys) =
    map (fun x => x * x)%Qc (index_values (length ys)).
Proof. rewrite <- points_fst, map_map. reflexivity. Qed.

Lemma points_count (ys : list Qc) :
  total (map (fun _ => Q2Qc 1) (points ys)) = Qc_of_Z (Z.of_nat (length ys)).
Proof.
  rewrite (total_constant (Q2Qc 1)).
  - unfold COUNT, points. rewrite length_map, length_zip, length_index_values.
    rewrite Nat.min_id. ring.
  - intros x Hx. apply list_elem_of_fmap in Hx as (p & -> & _). reflexivity.
Qed.

(** On finite totals the closed form of the specification is finite,
    and it is the line of least squares: no other line has a smaller
    sum of squared residuals against the points [(i, y_i)]. *)
Lemma ols_least_squares (ys : list Qc) :
  2 <= length ys ->
  exists slope intercept : Qc,
    ols_slope (map Fin ys) = Fin slope /\
    ols_intercept (map Fin ys) = Fin intercept /\
    forall m b : Qc, (sse slope intercept (points ys) <= sse m b (points ys))%Qc.
Proof.
  intros Hlen.
  set (n := Qc_of_Z (Z.of_nat (length ys))).
  set (Sx := total (index_values (length ys))).
  set (Sy := total ys).
  set (Sxy := total (zip_with Qcmult (index_values (length ys)) ys)).
  set (Sxx := total (map (fun x => x * x)%Qc (index_values (length ys)))).
  assert (Hn : n <> Q2Qc 0) by (apply Qc_of_Z_nonzero; lia).
  assert (HD : (n * Sxx - Sx * Sx)%Qc <> Q2Qc 0) by now apply regression_denominator.
  assert (Hslope : ols_slope (map Fin ys)
                   = Fin ((n * Sxy - Sx * Sy) / (n * Sxx - Sx * Sx))).
  { unfold ols_slope. cbn zeta. rewrite length_map, indices_values.
    rewrite zip_with_fmul_Fin, !fsum_Fin.
    replace (map (fun x => fmul x x) (map Fin (index_values (length ys))))
      with (map Fin (map (fun x => x * x)%Qc (index_values (length ys))))
      by (rewrite !map_map; reflexivity).
    rewrite fsum_Fin. unfold float64_of_int, fsub. cbn [fmul fopp fadd].
    fold n Sx Sy Sxy Sxx. apply fdiv_finite. exact HD. }
  set (s := ((n * Sxy - Sx * Sy) / (n * Sxx - Sx * Sx))%Qc) in *.
  set (c := ((Sy - s * Sx) / n)%Qc).
  exists s, c.
  split; [exact Hslope|]. split.
  { unfold ols_intercept. cbn zeta. rewrite Hslope, length_map, indices_values, !fsum_Fin.
    unfold float64_of_int, fsub. cbn [fmul fopp fadd].
    fold n Sx Sy. now rewrite fdiv_finite. }
  intros m b.
  destruct (normal_equations n Sx Sy Sxy Sxx Hn HD) as [E1 E2].
  cbn zeta in E1, E2. fold s in E1, E2. fold c in E1, E2.
  rewrite (sse_decompose m b s c (points ys)).
  rewrite points_fst, points_snd, points_products, points_squares, points_count.
  fold n Sx Sy Sxy Sxx. rewrite E1, E2.
  pose proof (total_squares_nonnegative
    (fun p : Qc * Qc => ((s - m) * p.1 + (c - b))%Qc) (points ys)) as Hsq.
  cbn beta in Hsq.
  set (L := sse s c (points ys)) in *.
  set (T := total (map (fun p : Qc * Qc =>
                          (((s - m) * p.1 + (c - b)) * ((s - m) * p.1 + (c - b)))%Qc)
                       (points ys))) in *.
  clearbody L T. clear -Hsq.
  qc_to_q. lra.
Qed.


(** C10: with at least 7 historical points, a horizon of zero or less
    gives the empty forecast and no error; whether the insufficient-data
    error is raised depends on the number of points alone. *)
Theorem ForecastCosts_nonpositive_horizon
    (ca : CostAnalytics) (days : Z) (trends : list CostTrend) :
  GetCostTrends ca 30 = Ok trends ->
  (7 <= length trends -> (days <= 0)%Z -> ForecastCosts ca days = Ok []) /\
  (ForecastCosts ca days = Err "insufficient data for forecasting"
     <-> length trends < 7).
Proof.
  intros H. split.
  - intros Hlen Hdays.
    rewrite (ForecastCosts_enough _ _ _ H Hlen), seqZ_nil by lia. reflexivity.
  - rewrite (ForecastCosts_unfold _ _ _ H).
    destruct (Z.ltb_spec (Z.of_nat (length trends)) 7); split; intros; try lia; done.
Qed.

Lemma ForecastCosts_nonpositive_horizon_witness :
  ForecastCosts spike 0 = Ok [] /\ ForecastCosts spike (-3) = Ok [].
Proof.
  split.
  - eapply ForecastCosts_nonpositive_horizon;
      [vm_compute; reflexivity | vm_compute; lia | lia].
  - eapply ForecastCosts_nonpositive_horizon;
      [vm_compute; reflexivity | vm_compute; lia | lia].
Defined.



Lemma floored_negative (last_total predicted : float64) :
  flt predicted (Fin 0) = true ->
  floored last_total predicted = fmul last_total (Fin (Q2Qc 0.9)).
Proof. intros H. unfold floored. now rewrite H. Qed.


(** Where the last historical total is not negative, the floor rule
    does what it is there for. *)
Lemma floored_of_nonnegative_total (l : Qc) (predicted : float64) :
  (0 <= l)%Qc ->
  flt (floored (Fin l) predicted) (Fin 0) = false.
Proof.
  intros Hl. unfold floored.
  destruct (flt predicted (Fin 0)) eqn:E; [|exact E].
  cbn. apply Qc_ltb_ge. qc_to_q. lra.
Qed.






(** ** The queries of DetectAnomalies *)

Lemma insert_sorted_Permutation {A : Type} (le : A -> A -> bool) (a : A) (l : list A) :
  insert_sorted le a l ≡ₚ a :: l.
Proof.
  induction l as [|b l IH]; cbn; [reflexivity|].
  destruct (le a b); [reflexivity|].
  rewrite IH. apply Permutation_swap.
Qed.

Lemma ORDER_BY_Permutation {A : Type} (le : A -> A -> bool) (l : list A) :
  ORDER_BY le l ≡ₚ l.
Proof.
  induction l as [|a l IH]; cbn; [reflexivity|].
  rewrite insert_sorted_Permutation. now rewrite IH.
Qed.

Lemma elem_of_GROUP_BY {A K : Type} `{EqDecision K}
    (key : A -> K) (rows : list A) (k : K) (g : list A) :
  (k, g) ∈ GROUP_BY key rows <->
  k ∈ map key rows /\ g = filter (fun a => key a = k) rows.
Proof.
  unfold GROUP_BY. rewrite list_elem_of_fmap. split.
  - intros (k' & [= -> ->] & Hk). now rewrite elem_of_remove_dups in Hk.
  - intros [Hk ->]. exists k. now rewrite elem_of_remove_dups.
Qed.

(** The rows of [stats]: one for each pair with at least 7 samples,
    computed from the samples of the pair. *)
Lemma elem_of_stats (sqrt : Qc -> Qc) (tbl : list BillingRow) (today days : Z)
    (st : stats_row) :
  st ∈ stats sqrt tbl today days <->
  let xs := samples tbl today days (stats_project_id st) (stats_service_name st) in
  (7 <= COUNT xs)%Z /\
  avg_cost st = AVG xs /\
  stddev_cost st = STDDEV sqrt xs /\
  data_points st = COUNT xs.
Proof.
  unfold stats, samples. rewrite list_elem_of_filter, list_elem_of_fmap. cbn zeta.
  split.
  - intros [Hn ([[p s] g] & -> & Hg)]. cbn in *.
    apply elem_of_GROUP_BY in Hg as [_ ->].
    unfold COUNT in *. rewrite length_map in *. auto.
  - intros (Hn & Havg & Hsd & Hcount). split; [lia|].
    destruct st as [p s avg sd n]; cbn in *.
    exists ((p, s), filter (fun h => (row_project_id h, row_service_name h) = (p, s))
                      (baseline_window tbl today days)).
    split.
    + subst. unfold COUNT. rewrite length_map. reflexivity.
    + apply elem_of_GROUP_BY. split; [|reflexivity].
      unfold COUNT in Hn. rewrite length_map in Hn.
      destruct (filter _ _) as [|h l] eqn:E; [cbn in Hn; lia|].
      assert (Hh : h ∈ filter (fun h => (row_project_id h, row_service_name h) = (p, s))
                        (baseline_window tbl today days))
        by (rewrite E; left).
      apply list_elem_of_filter in Hh as [<- Hh].
      apply list_elem_of_fmap. eauto.
Qed.

Lemma z_score_Some (r : daily_cost_row) (st : stats_row) (z : Qc) :
  z_score r st = Some z <->
  exists sd, stddev_cost st = Some sd /\ sd <> Q2Qc 0 /\
             z = (ABS (daily_cost r - avg_cost st) / sd)%Qc.
Proof.
  unfold z_score, NULLIF. destruct (stddev_cost st) as [sd|]; cbn.
  - destruct (Qc_eqb sd (Q2Qc 0)) eqn:E; cbn.
    + apply Qc_eqb_eq in E. split; [discriminate|].
      intros (sd' & [= <-] & Hne & _). contradiction.
    + apply Qc_eqb_neq in E. split.
      * intros [= <-]. eauto.
      * intros (sd' & [= <-] & _ & ->). reflexivity.
  - split; [discriminate|]. intros (sd & Hsd & _). discriminate.
Qed.

Lemma elem_of_joined (T : Qc) (r : daily_cost_row) (st : stats_row) (row : anomaly_row) :
  row ∈ joined T r st <->
  row_project_id r = stats_project_id st /\
  row_service_name r = stats_service_name st /\
  exists sd z,
    stddev_cost st = Some sd /\ z_score r st = Some z /\ (T < z)%Qc /\
    row = {| row_UsageDate := usage_date r;
             row_ProjectID := row_project_id r;
             row_ServiceName := row_service_name r;
             row_ActualCost := daily_cost r;
             row_ExpectedCost := avg_cost st;
             row_StddevCost := sd;
             row_ZScore := z |}.
Proof.
  unfold joined. case_decide as Hkey.
  - destruct Hkey as [Hp Hs].
    destruct (z_score r st) as [z|] eqn:Hz.
    + destruct (stddev_cost st) as [sd|] eqn:Hsd.
      * destruct (Qc_ltb T z) eqn:Hlt.
        -- apply Qc_ltb_lt in Hlt. rewrite list_elem_of_singleton. split.
           ++ intros ->. eauto 10.
           ++ intros (_ & _ & sd' & z' & [= <-] & [= <-] & _ & ->). reflexivity.
        -- apply Qc_ltb_ge in Hlt. split; [intros Hin; inversion Hin|].
           intros (_ & _ & sd' & z' & _ & [= <-] & Hlt' & _).
           exfalso. exact (Qcle_not_lt _ _ Hlt Hlt').
      * split; [intros Hin; inversion Hin|].
        intros (_ & _ & sd' & z' & Hsd' & _). discriminate.
    + split; [destruct (stddev_cost st); intros Hin; inversion Hin|].
      intros (_ & _ & sd' & z' & _ & Hz' & _). discriminate.
  - split; [intros Hin; inversion Hin|]. intros (Hp & Hs & _). tauto.
Qed.

Lemma elem_of_anomaly_query (sqrt : Qc -> Qc) (tbl : list BillingRow) (today days : Z)
    (T : Qc) (row : anomaly_row) :
  row ∈ anomaly_query sqrt tbl today days T <->
  exists r st,
    r ∈ recent_costs tbl today /\ st ∈ stats sqrt tbl today days /\
    row ∈ joined T r st.
Proof.
  unfold anomaly_query. rewrite ORDER_BY_Permutation, list_elem_of_bind. split.
  - intros (r & Hrow & Hr). apply list_elem_of_bind in Hrow as (st & Hrow & Hst). eauto.
  - intros (r & st & Hr & Hst & Hrow). exists r. split; [|exact Hr].
    apply list_elem_of_bind. eauto.
Qed.

Lemma DetectAnomalies_Ok (ca : CostAnalytics) (days : Z) (threshold : float64)
    (anomalies : list Anomaly) :
  DetectAnomalies ca days threshold = Ok anomalies <->
  read_error (bqClient ca) = None /\
  exists t, threshold = Fin t /\
    anomalies =
      map anomaly_of_row
        (anomaly_query (SQRT (bqClient ca)) (table (bqClient ca))
           (CURRENT_DATE (bqClient ca)) days (Sprintf_f t)).
Proof.
  unfold DetectAnomalies, Read. destruct (read_error (bqClient ca)) as [e|].
  - split; [discriminate|]. intros [? _]; discriminate.
  - destruct threshold as [t| | |].
    + split.
      * intros [= <-]. eauto.
      * intros (_ & t' & [= <-] & ->). reflexivity.
    + split; [discriminate|]. intros (_ & t' & ? & _); discriminate.
    + split; [discriminate|]. intros (_ & t' & ? & _); discriminate.
    + split; [discriminate|]. intros (_ & t' & ? & _); discriminate.
Qed.

(** What stands behind an emitted finding: a row of yesterday's costs
    whose pair has a baseline, taken from at least 7 samples, with a
    standard deviation that is not zero and a z-score above the
    threshold the query was given. *)
Lemma DetectAnomalies_finding (ca : CostAnalytics) (days : Z) (threshold : float64)
    (anomalies : list Anomaly) (a : Anomaly) :
  DetectAnomalies ca days threshold = Ok anomalies ->
  a ∈ anomalies ->
  let bq := bqClient ca in
  let xs := samples (table bq) (CURRENT_DATE bq) days (ProjectID a) (ServiceName a) in
  exists t r sd z,
    threshold = Fin t /\
    r ∈ recent_costs (table bq) (CURRENT_DATE bq) /\
    (7 <= COUNT xs)%Z /\
    STDDEV (SQRT bq) xs = Some sd /\
    sd <> Q2Qc 0 /\
    z = (ABS (daily_cost r - AVG xs) / sd)%Qc /\
    (Sprintf_f t < z)%Qc /\
    a = anomaly_of_row
          {| row_UsageDate := usage_date r;
             row_ProjectID := row_project_id r;
             row_ServiceName := row_service_name r;
             row_ActualCost := daily_cost r;
             row_ExpectedCost := AVG xs;
             row_StddevCost := sd;
             row_ZScore := z |}.
Proof.
  intros Hok Ha bq xs.
  apply DetectAnomalies_Ok in Hok as (_ & t & -> & ->).
  apply list_elem_of_fmap in Ha as (row & -> & Hrow).
  apply elem_of_anomaly_query in Hrow as (r & st & Hr & Hst & Hrow).
  apply elem_of_joined in Hrow as (Hp & Hs & sd & z & Hsd & Hz & Hlt & ->).
  apply z_score_Some in Hz as (sd' & Hsd' & Hne & Hz).
  assert (sd' = sd) as -> by congruence.
  apply elem_of_stats in Hst as (Hn & Havg & Hsd'' & _).
  subst bq xs. cbn [anomaly_of_row ProjectID ServiceName row_ProjectID row_ServiceName].
  rewrite Hp, Hs. cbn zeta in Havg, Hsd'', Hn.
  rewrite <- Havg, <- Hsd''.
  exists t, r, sd, z. repeat split; try assumption; try reflexivity.
  congruence.
Qed.

(** ** DetectAnomalies *)

Lemma severity_tiers (z : Qc) :
  ((Q2Qc 3 < z)%Qc -> severity (Fin z) = "High") /\
  ((Q2Qc 2 < z)%Qc /\ (z <= Q2Qc 3)%Qc -> severity (Fin z) = "Medium") /\
  ((z <= Q2Qc 2)%Qc -> severity (Fin z) = "Low").
Proof.
  unfold severity. cbn [flt].
  destruct (Qc_ltb (Q2Qc 3) z) eqn:H3; destruct (Qc_ltb (Q2Qc 2) z) eqn:H2;
    try apply Qc_ltb_lt in H3; try apply Qc_ltb_ge in H3;
    try apply Qc_ltb_lt in H2; try apply Qc_ltb_ge in H2;
    repeat split; try reflexivity; intros; exfalso;
    qc_to_q; lra.
Qed.

(** C4: the severity of every emitted finding follows from its
    z-score, [|actual - expected| / stddev] over the baseline of its
    pair, by fixed thresholds tried from the highest down: above 3 it
    is High, above 2 and up to 3 it is Medium, and up to 2 it is Low;
    the z-score of an emitted finding is above the threshold of the
    query.  At exactly 3 the severity is Medium. *)
Theorem DetectAnomalies_severity
    (ca : CostAnalytics) (days : Z) (threshold : float64)
    (anomalies : list Anomaly) (a : Anomaly) :
  DetectAnomalies ca days threshold = Ok anomalies ->
  a ∈ anomalies ->
  let bq := bqClient ca in
  let xs := samples (table bq) (CURRENT_DATE bq) days (ProjectID a) (ServiceName a) in
  exists t actual stddev z,
    threshold = Fin t /\
    ActualCost a = Fin actual /\
    ExpectedCost a = Fin (AVG xs) /\
    STDDEV (SQRT bq) xs = Some stddev /\
    stddev <> Q2Qc 0 /\
    z = (ABS (actual - AVG xs) / stddev)%Qc /\
    (Sprintf_f t < z)%Qc /\
    ((Q2Qc 3 < z)%Qc -> Severity a = "High") /\
    ((Q2Qc 2 < z)%Qc /\ (z <= Q2Qc 3)%Qc -> Severity a = "Medium") /\
    ((z <= Q2Qc 2)%Qc -> Severity a = "Low") /\
    (z = Q2Qc 3 -> Severity a = "Medium").
Proof.
  intros Hok Ha bq xs.
  destruct (DetectAnomalies_finding _ _ _ _ _ Hok Ha)
    as (t & r & sd & z & -> & _ & _ & Hsd & Hne & Hz & Hlt & Heq).
  fold bq in Hsd, Hz, Heq. fold xs in Hsd, Hz, Heq.
  exists t, (daily_cost r), sd, z.
  destruct (severity_tiers z) as (Hhigh & Hmedium & Hlow).
  rewrite Heq. cbn [anomaly_of_row ActualCost ExpectedCost Severity row_ZScore
                    row_ActualCost row_ExpectedCost].
  repeat split; auto.
  intros ->. apply Hmedium. split; [compute_done | apply Qcle_refl].
Qed.

Lemma DetectAnomalies_severity_witness :
  exists a,
    DetectAnomalies spike 30 (Fin (Q2Qc 2)) = Ok [a] /\
    ActualCost a = Fin (Q2Qc 40) /\
    Severity a = "High".
Proof.
  eexists. split; [vm_compute; reflexivity|].
  split; [compute_done|].
  match goal with |- Severity ?a = _ =>
    destruct (DetectAnomalies_severity spike 30 (Fin (Q2Qc 2)) [a] a)
      as (t & actual & stddev & z & _ & Hact & _ & Hsd & _ & Hz & _ & Hhigh & _)
  end.
  - vm_compute; reflexivity.
  - left.
  - apply Hhigh. subst z.
    injection Hact as <-. vm_compute in Hsd. injection Hsd as <-.
    vm_compute. reflexivity.
Defined.

Lemma deviationPct_finite (actual expected : Qc) :
  expected <> Q2Qc 0 ->
  deviationPct (Fin actual) (Fin expected) =
    Fin ((actual - expected) / expected * Q2Qc 100).
Proof.
  intros Hne. unfold deviationPct, fsub. cbn [fopp fadd].
  rewrite fdiv_finite by assumption. reflexivity.
Qed.

Lemma deviationPct_zero_expected (actual : Qc) :
  deviationPct (Fin actual) (Fin (Q2Qc 0)) =
    if decide (actual = Q2Qc 0) then NaN else inf (Qc_ltb actual (Q2Qc 0)).
Proof.
  unfold deviationPct, fsub. cbn [fopp fadd].
  replace (actual + - Q2Qc 0)%Qc with actual by ring.
  unfold fdiv, fsign.
  replace (Qc_eqb (Q2Qc 0) (Q2Qc 0)) with true by (symmetry; compute_done).
  case_decide as H0.
  - apply Qc_eqb_eq in H0. rewrite H0. reflexivity.
  - apply Qc_eqb_neq in H0. rewrite H0.
    destruct (Qc_ltb actual (Q2Qc 0)); reflexivity.
Qed.

(** What the code computes: for every emitted finding [DeviationPct] is
    [(actual - expected) / expected * 100], whether [ExpectedCost] is
    zero or not.  When [ExpectedCost] is not zero this is the
    percentage; when it is exactly zero the finding is emitted all the
    same, and [DeviationPct] is what the division by zero gives: an
    infinity of the sign of [ActualCost], or a NaN when [ActualCost] is
    zero too. *)
Lemma deviationPct_of_finding
    (ca : CostAnalytics) (days : Z) (threshold : float64)
    (anomalies : list Anomaly) (a : Anomaly) :
  DetectAnomalies ca days threshold = Ok anomalies ->
  a ∈ anomalies ->
  DeviationPct a =
    fmul (fdiv (fsub (ActualCost a) (ExpectedCost a)) (ExpectedCost a))
         (Fin (Q2Qc 100)) /\
  exists actual expected,
    ActualCost a = Fin actual /\
    ExpectedCost a = Fin expected /\
    (expected <> Q2Qc 0 ->
       DeviationPct a = Fin ((actual - expected) / expected * Q2Qc 100)) /\
    (expected = Q2Qc 0 ->
       DeviationPct a =
         (if decide (actual = Q2Qc 0) then NaN else inf (Qc_ltb actual (Q2Qc 0))) /\
       is_finite (DeviationPct a) = false).
Proof.
  intros Hok Ha.
  destruct (DetectAnomalies_finding _ _ _ _ _ Hok Ha)
    as (t & r & sd & z & _ & _ & _ & _ & _ & _ & _ & Heq).
  rewrite Heq.
  cbn [anomaly_of_row DeviationPct ActualCost ExpectedCost row_ActualCost row_ExpectedCost].
  split; [reflexivity|].
  eexists _, _. split; [reflexivity|]. split; [reflexivity|]. split.
  - apply deviationPct_finite.
  - intros ->. rewrite deviationPct_zero_expected. split; [reflexivity|].
    case_decide; [reflexivity|]. destruct (Qc_ltb _ _); reflexivity.
Qed.





(** *** The baseline of identical samples *)

Lemma AVG_constant (c : Qc) (l : list Qc) :
  l <> [] -> (forall x, x ∈ l -> x = c) -> AVG l = c.
Proof.
  intros Hne Hall. unfold AVG. rewrite (total_constant c) by assumption.
  assert (Hn : Qc_of_Z (COUNT l) <> Q2Qc 0).
  { apply Qc_of_Z_nonzero. unfold COUNT. destruct l; [contradiction | cbn; lia]. }
  field. exact Hn.
Qed.

(** The standard deviation of identical samples is the square root of
    zero. *)
Lemma STDDEV_constant (sqrt : Qc -> Qc) (c : Qc) (l : list Qc) :
  (2 <= COUNT l)%Z -> (forall x, x ∈ l -> x = c) ->
  STDDEV sqrt l = Some (sqrt (Q2Qc 0)).
Proof.
  intros Hn Hall. unfold STDDEV.
  destruct (Z.ltb_spec (COUNT l) 2) as [|_]; [lia|].
  cbn zeta. rewrite (AVG_constant c) by (try assumption; intros ->; unfold COUNT in Hn; cbn in Hn; lia).
  rewrite (total_constant (Q2Qc 0)).
  - do 2 f_equal. unfold Qcdiv. ring.
  - intros y Hy. apply list_elem_of_fmap in Hy as (x & -> & Hx).
    rewrite (Hall x Hx). ring.
Qed.

(** C3: a pair whose historical daily costs are all the same, so that
    their standard deviation is exactly zero, has no finding, whatever
    yesterday's cost and the threshold are: the query turns a zero
    standard deviation into NULL, and a NULL z-score passes no
    comparison.  [SQRT 0 = 0] is what is asked of the engine's square
    root. *)
Theorem DetectAnomalies_zero_variance
    (ca : CostAnalytics) (days : Z) (threshold : float64)
    (anomalies : list Anomaly) (p s : string) (c : Qc) :
  let bq := bqClient ca in
  SQRT bq (Q2Qc 0) = Q2Qc 0 ->
  (forall x, x ∈ samples (table bq) (CURRENT_DATE bq) days p s -> x = c) ->
  DetectAnomalies ca days threshold = Ok anomalies ->
  forall a, a ∈ anomalies -> ~ (ProjectID a = p /\ ServiceName a = s).
Proof.
  intros bq Hsqrt Hall Hok a Ha [<- <-].
  destruct (DetectAnomalies_finding _ _ _ _ _ Hok Ha)
    as (t & r & sd & z & _ & _ & Hn & Hsd & Hne & _).
  fold bq in Hn, Hsd.
  rewrite (STDDEV_constant _ c) in Hsd by (try assumption; lia).
  rewrite Hsqrt in Hsd. congruence.
Qed.

Lemma DetectAnomalies_zero_variance_witness :
  Forall (fun a => ~ (ProjectID a = "P" /\ ServiceName a = "S"))
    (match DetectAnomalies flat_history 30 (Fin (Q2Qc 2)) with
     | Ok l => l
     | Err _ => []
     end).
Proof.
  apply Forall_forall.
  apply (DetectAnomalies_zero_variance flat_history 30 (Fin (Q2Qc 2)) _ "P" "S"
           (Qc_of_Z 10)).
  - compute_done.
  - apply Forall_forall. compute_done.
  - vm_compute. reflexivity.
Defined.



(** * Further properties *)

(** ** Ordering and grouping *)

Lemma insert_sorted_StronglySorted {A : Type} (R : relation A)
    (le : A -> A -> bool) (a : A) (l : list A) :
  (forall x y z, R x y -> R y z -> R x z) ->
  (forall x y, le x y = true -> R x y) ->
  (forall x y, le x y = false -> R y x) ->
  StronglySorted R l -> StronglySorted R (insert_sorted le a l).
Proof.
  intros Htrans Htrue Hfalse. induction l as [|b l IH]; intros Hs; cbn.
  - repeat constructor.
  - apply StronglySorted_inv in Hs as [Hl Hb].
    destruct (le a b) eqn:E.
    + constructor; [constructor; assumption|].
      constructor; [now apply Htrue|].
      eapply Forall_impl; [exact Hb|]. intros x Hx.
      apply (Htrans _ b); [now apply Htrue | exact Hx].
    + constructor; [now apply IH|].
      rewrite insert_sorted_Permutation. constructor; [now apply Hfalse | exact Hb].
Qed.

Lemma ORDER_BY_StronglySorted {A : Type} (R : relation A)
    (le : A -> A -> bool) (l : list A) :
  (forall x y z, R x y -> R y z -> R x z) ->
  (forall x y, le x y = true -> R x y) ->
  (forall x y, le x y = false -> R y x) ->
  StronglySorted R (ORDER_BY le l).
Proof.
  intros Htrans Htrue Hfalse. induction l as [|a l IH]; cbn; [constructor|].
  now apply insert_sorted_StronglySorted.
Qed.


Lemma GROUP_BY_keys {A K : Type} `{EqDecision K} (key : A -> K) (rows : list A) :
  map fst (GROUP_BY key rows) = remove_dups (map key rows).
Proof. unfold GROUP_BY. rewrite map_map. cbn. apply map_id. Qed.

Lemma aggregated_costs_dates (tbl : list BillingRow) (today days : Z) :
  map UsageDate (aggregated_costs tbl today days) ≡ₚ
  remove_dups (map dc_usage_date (daily_costs tbl today days)).
Proof.
  unfold aggregated_costs. rewrite ORDER_BY_Permutation, map_map, <- GROUP_BY_keys.
  rewrite (map_ext _ fst); [reflexivity|]. now intros [d rows].
Qed.

(** ** GetCostTrends, further *)

Lemma GetCostTrends_Ok (ca : CostAnalytics) (days : Z) (trends : list CostTrend) :
  GetCostTrends ca days = Ok trends <->
  read_error (bqClient ca) = None /\
  trends = map trend_of_row
             (aggregated_costs (table (bqClient ca)) (CURRENT_DATE (bqClient ca)) days).
Proof.
  unfold GetCostTrends, Read. destruct (read_error (bqClient ca)).
  - split; [discriminate | intros [? _]; discriminate].
  - split; [intros [= <-]; auto | intros [_ ->]; reflexivity].
Qed.

Lemma elem_of_daily_costs_dates (tbl : list BillingRow) (today days d : Z) :
  d ∈ map dc_usage_date (daily_costs tbl today days) <->
  exists r, r ∈ tbl /\ DATE (usage_start_time r) = d /\ (today - days <= d)%Z.
Proof.
  unfold daily_costs. rewrite map_map, list_elem_of_fmap. split.
  - intros ([[[d' p] s] g] & -> & Hg). cbn.
    apply elem_of_GROUP_BY in Hg as [Hk _].
    apply list_elem_of_fmap in Hk as (r & [= -> -> ->] & Hr).
    apply list_elem_of_filter in Hr as [Hw Hr]. eauto.
  - intros (r & Hr & <- & Hw).
    eexists (_, _). split; [|apply elem_of_GROUP_BY; split; [|reflexivity]].
    2: { apply list_elem_of_fmap. exists r. split; [reflexivity|].
         apply list_elem_of_filter. split; [exact Hw | exact Hr]. }
    reflexivity.
Qed.





(** *** Sums over groups *)

Lemma total_map_plus {A : Type} (f g : A -> Qc) (l : list A) :
  total (map (fun a => f a + g a)%Qc l) = (total (map f l) + total (map g l))%Qc.
Proof.
  induction l as [|a l IH]; cbn [map].
  - rewrite !total_nil. ring.
  - rewrite !total_cons, IH. ring.
Qed.

Lemma total_indicator {K : Type} `{EqDecision K} (k0 : K) (v : Qc) (ks : list K) :
  NoDup ks -> k0 ∈ ks ->
  total (map (fun k => if decide (k0 = k) then v else Q2Qc 0) ks) = v.
Proof.
  induction ks as [|k ks IH]; intros Hnd Hin; [inversion Hin|].
  apply NoDup_cons in Hnd as [Hnotin Hnd].
  cbn [map]. rewrite total_cons. case_decide as E.
  - subst k. rewrite (total_constant (Q2Qc 0)); [ring|].
    intros x Hx. apply list_elem_of_fmap in Hx as (k & -> & Hk).
    case_decide; [congruence | reflexivity].
  - apply elem_of_cons in Hin as [->|Hin]; [contradiction|].
    rewrite IH by assumption. ring.
Qed.

(** The groups of a [GROUP BY] share out the rows: a sum over the rows
    is the sum of its sums over the groups. *)
Lemma total_by_groups {A K : Type} `{EqDecision K}
    (key : A -> K) (f : A -> Qc) (ks : list K) (l : list A) :
  NoDup ks ->
  (forall a, a ∈ l -> key a ∈ ks) ->
  total (map (fun k => total (map f (filter (fun a => key a = k) l))) ks) =
  total (map f l).
Proof.
  intros Hnd. induction l as [|a l IH]; intros Hks.
  - cbn [map]. rewrite total_nil, (total_constant (Q2Qc 0)); [ring|].
    intros x Hx. apply list_elem_of_fmap in Hx as (k & -> & _). reflexivity.
  - cbn [map]. rewrite total_cons.
    rewrite <- IH by (intros b Hb; apply Hks; now right).
    rewrite <- (total_indicator (key a) (f a) ks Hnd) at 1 by (apply Hks; now left).
    rewrite <- total_map_plus. f_equal. apply map_ext. intros k.
    rewrite filter_cons. destruct (decide (key a = k)) as [E|E].
    + cbn [map]. now rewrite total_cons.
    + ring.
Qed.

Lemma daily_costs_net (tbl : list BillingRow) (today days : Z) (dc : daily_costs_row) :
  dc ∈ daily_costs tbl today days ->
  net dc =
    total (map net_cost
             (filter (fun r => (DATE (usage_start_time r), project_id r,
                                service_description r)
                               = (dc_usage_date dc, dc_project_id dc, dc_service_name dc))
                (filter (fun r => (today - days <= DATE (usage_start_time r))%Z) tbl))).
Proof.
  unfold daily_costs. intros Hdc.
  apply list_elem_of_fmap in Hdc as ([[[d p] s] g] & -> & Hg).
  apply elem_of_GROUP_BY in Hg as [_ ->].
  unfold net. cbn. symmetry. apply total_map_plus.
Qed.

Lemma filter_map {A B : Type} (P : B -> Prop) `{!forall b, Decision (P b)}
    (h : A -> B) (l : list A) :
  filter P (map h l) = map h (filter (fun a => P (h a)) l).
Proof.
  induction l as [|a l IH]; [reflexivity|].
  cbn [map]. rewrite !filter_cons. destruct (decide (P (h a))); cbn [map]; now rewrite IH.
Qed.

(** The rows of [aggregated_costs]: the row of a date is computed from
    the rows of [daily_costs] of that date. *)
Lemma elem_of_aggregated_costs (tbl : list BillingRow) (today days : Z)
    (row : aggregated_costs_row) :
  row ∈ aggregated_costs tbl today days ->
  let g := filter (fun dc => dc_usage_date dc = UsageDate row)
             (daily_costs tbl today days) in
  UsageDate row ∈ map dc_usage_date (daily_costs tbl today days) /\
  DailyTotal row = total (map net g) /\
  ServiceCosts row = map (fun r => (dc_service_name r, net r)) g /\
  ProjectCosts row = map (fun r => (dc_project_id r, net r)) g.
Proof.
  unfold aggregated_costs. rewrite ORDER_BY_Permutation. intros Hrow.
  apply list_elem_of_fmap in Hrow as ([d g] & -> & Hg).
  apply elem_of_GROUP_BY in Hg as [Hd ->]. cbn. auto.
Qed.

(** The total of a day is the sum of the net costs of the rows of the
    table of that day. *)
Lemma aggregated_costs_DailyTotal (tbl : list BillingRow) (today days : Z)
    (row : aggregated_costs_row) :
  row ∈ aggregated_costs tbl today days ->
  DailyTotal row =
    total (map net_cost
             (filter (fun r => DATE (usage_start_time r) = UsageDate row) tbl)).
Proof.
  intros Hrow.
  destruct (elem_of_aggregated_costs _ _ _ _ Hrow) as (Hd & -> & _).
  apply elem_of_daily_costs_dates in Hd as (_ & _ & _ & Hw).
  set (d := UsageDate row) in *.
  set (F := filter (fun r => (today - days <= DATE (usage_start_time r))%Z) tbl).
  set (key3 := fun r : BillingRow =>
                 (DATE (usage_start_time r), project_id r, service_description r)).
  assert (HF : filter (fun r => DATE (usage_start_time r) = d) tbl
               = filter (fun r => DATE (usage_start_time r) = d) F).
  { unfold F. rewrite list_filter_filter_l; [reflexivity|]. intros r ->. exact Hw. }
  rewrite HF.
  unfold daily_costs, GROUP_BY. fold F. fold key3.
  rewrite !map_map, filter_map, map_map.
  match goal with |- total (map _ (filter ?P ?ks)) = _ =>
    rewrite <- (total_by_groups key3 net_cost (filter P ks))
  end.
  - f_equal. apply map_ext_in. intros [[d' p] s] Hk.
    apply list_elem_of_In, list_elem_of_filter in Hk as [Hkd _]. cbn in Hkd.
    unfold net. cbn. rewrite <- total_map_plus. f_equal. f_equal.
    rewrite list_filter_filter_l; [reflexivity|].
    intros r Hr. unfold key3 in Hr. congruence.
  - apply NoDup_filter, NoDup_remove_dups.
  - intros r Hr. apply list_elem_of_filter in Hr as [Hrd Hr].
    apply list_elem_of_filter. split; [exact Hrd|].
    apply elem_of_remove_dups. now apply list_elem_of_fmap_2.
Qed.

(** X3: the total of a trend is the sum, over all rows of the table
    of that date, of cost plus credits. *)
Theorem GetCostTrends_TotalCost
    (ca : CostAnalytics) (days : Z) (trends : list CostTrend) (t : CostTrend) :
  GetCostTrends ca days = Ok trends ->
  t ∈ trends ->
  TotalCost t =
    Fin (total (map net_cost
                  (filter (fun r => DATE (usage_start_time r) = Date t)
                     (table (bqClient ca))))).
Proof.
  intros H Ht. apply GetCostTrends_Ok in H as [_ ->].
  apply list_elem_of_fmap in Ht as (row & -> & Hrow). cbn.
  f_equal. eapply aggregated_costs_DailyTotal. exact Hrow.
Qed.

Lemma GetCostTrends_TotalCost_witness :
  exists t1 t2,
    GetCostTrends with_credits 30 = Ok [t1; t2] /\
    TotalCost t1 = Fin 0 /\ TotalCost t2 = Fin (Q2Qc 10).
Proof.
  do 2 eexists. split; [reflexivity|].
  match goal with |- TotalCost ?t1 = _ /\ TotalCost ?t2 = _ =>
    pose proof (GetCostTrends_TotalCost with_credits 30 [t1; t2] t1
                  eq_refl ltac:(left)) as H1;
    pose proof (GetCostTrends_TotalCost with_credits 30 [t1; t2] t2
                  eq_refl ltac:(right; left)) as H2
  end.
  split; [rewrite H1 | rewrite H2]; compute_done.
Defined.

(** *** The breakdowns *)

Lemma fadd_comm (x y : float64) : fadd x y = fadd y x.
Proof. destruct x, y; cbn; try reflexivity. f_equal. ring. Qed.

Lemma fadd_assoc (x y z : float64) : fadd x (fadd y z) = fadd (fadd x y) z.
Proof. destruct x, y, z; cbn; try reflexivity. f_equal. ring. Qed.

Lemma costs_map_snoc (costs : list (string * Qc)) (k : string) (v : Qc) :
  costs_map (costs ++ [(k, v)]) = <[k := Fin v]> (costs_map costs).
Proof. unfold costs_map. now rewrite fold_left_app. Qed.

Lemma costs_map_lookup_None (costs : list (string * Qc)) (k : string) :
  k ∉ map fst costs -> costs_map costs !! k = None.
Proof.
  induction costs as [|[k' v] costs IH] using rev_ind; intros Hk; [apply lookup_empty|].
  rewrite costs_map_snoc. rewrite map_app in Hk. cbn in Hk.
  rewrite lookup_insert_ne.
  - apply IH. intros Hin. apply Hk. apply elem_of_app. now left.
  - intros ->. apply Hk. apply elem_of_app. right. left.
Qed.

(** Where no key comes twice nothing is overwritten, and the values of
    the map add up to the sum of the entries. *)
Lemma map_total_costs_map (costs : list (string * Qc)) :
  NoDup (map fst costs) ->
  map_total (costs_map costs) = Fin (total (map snd costs)).
Proof.
  induction costs as [|[k v] costs IH] using rev_ind; intros Hnd.
  - unfold map_total, costs_map. cbn. now rewrite map_fold_empty.
  - rewrite map_app in Hnd. apply NoDup_app in Hnd as (Hnd & Hk & _).
    rewrite costs_map_snoc. unfold map_total.
    rewrite map_fold_insert_L.
    + fold (map_total (costs_map costs)). rewrite IH by assumption.
      rewrite map_app, total_app. cbn [map snd fadd].
      rewrite total_cons, total_nil. f_equal. ring.
    + intros j1 j2 z1 z2 y _ _ _. rewrite !fadd_assoc. f_equal. apply fadd_comm.
    + apply costs_map_lookup_None. intros Hin. apply (Hk k Hin). left.
Qed.

Lemma NoDup_map_eq {A B : Type} (f : A -> B) (l : list A) (x y : A) :
  NoDup (map f l) -> x ∈ l -> y ∈ l -> f x = f y -> x = y.
Proof.
  induction l as [|a l IH]; intros Hnd Hx Hy E; [inversion Hx|].
  cbn in Hnd. apply NoDup_cons in Hnd as [Ha Hnd].
  apply elem_of_cons in Hx as [->|Hx]; apply elem_of_cons in Hy as [->|Hy].
  - reflexivity.
  - exfalso. apply Ha. rewrite E. now apply list_elem_of_fmap_2.
  - exfalso. apply Ha. rewrite <- E. now apply list_elem_of_fmap_2.
  - now apply IH.
Qed.

Lemma daily_costs_keys (tbl : list BillingRow) (today days : Z) :
  map (fun dc => (dc_usage_date dc, dc_project_id dc, dc_service_name dc))
      (daily_costs tbl today days) =
  remove_dups
    (map (fun r => (DATE (usage_start_time r), project_id r, service_description r))
       (filter (fun r => (today - days <= DATE (usage_start_time r))%Z) tbl)).
Proof.
  unfold daily_costs. rewrite map_map, <- GROUP_BY_keys.
  apply map_ext. now intros [[[d p] s] g].
Qed.

(** A row of [daily_costs] stands for rows of the table of its date,
    project and service. *)
Lemma daily_costs_row_of (tbl : list BillingRow) (today days : Z) (dc : daily_costs_row) :
  dc ∈ daily_costs tbl today days ->
  exists r, r ∈ tbl /\
            DATE (usage_start_time r) = dc_usage_date dc /\
            project_id r = dc_project_id dc /\
            service_description r = dc_service_name dc.
Proof.
  intros Hdc.
  assert (Hk : (dc_usage_date dc, dc_project_id dc, dc_service_name dc) ∈
               map (fun dc => (dc_usage_date dc, dc_project_id dc, dc_service_name dc))
                   (daily_costs tbl today days))
    by now apply (list_elem_of_fmap_2 (fun dc => (dc_usage_date dc, dc_project_id dc, dc_service_name dc))).
  rewrite daily_costs_keys, elem_of_remove_dups in Hk.
  apply list_elem_of_fmap in Hk as (r & [= E1 E2 E3] & Hr).
  apply list_elem_of_filter in Hr as [_ Hr]. eauto.
Qed.

(** X4: on a day on which every service is used by one project only,
    the service breakdown of the trend adds up to its total; on a day
    on which every project uses one service only, so does the project
    breakdown. *)
Theorem GetCostTrends_partition
    (ca : CostAnalytics) (days : Z) (trends : list CostTrend) (t : CostTrend) :
  GetCostTrends ca days = Ok trends ->
  t ∈ trends ->
  let same_day r := DATE (usage_start_time r) = Date t in
  let tbl := table (bqClient ca) in
  ((forall r1 r2, r1 ∈ tbl -> r2 ∈ tbl -> same_day r1 -> same_day r2 ->
      service_description r1 = service_description r2 ->
      project_id r1 = project_id r2) ->
   map_total (ServiceCost t) = TotalCost t) /\
  ((forall r1 r2, r1 ∈ tbl -> r2 ∈ tbl -> same_day r1 -> same_day r2 ->
      project_id r1 = project_id r2 ->
      service_description r1 = service_description r2) ->
   map_total (ProjectCost t) = TotalCost t).
Proof.
  intros H Ht same_day tbl. apply GetCostTrends_Ok in H as [_ ->].
  apply list_elem_of_fmap in Ht as (row & -> & Hrow).
  destruct (elem_of_aggregated_costs _ _ _ _ Hrow) as (_ & Htotal & Hsc & Hpc).
  cbn zeta in Htotal, Hsc, Hpc. fold tbl in Htotal, Hsc, Hpc.
  set (today := CURRENT_DATE (bqClient ca)) in *.
  set (g := filter (fun dc => dc_usage_date dc = UsageDate row)
              (daily_costs tbl today days)) in *.
  assert (Hg : forall dc, dc ∈ g ->
            dc ∈ daily_costs tbl today days /\ dc_usage_date dc = UsageDate row).
  { intros dc Hdc. apply list_elem_of_filter in Hdc. tauto. }
  assert (Hnd : NoDup g).
  { apply NoDup_filter.
    apply (NoDup_fmap_1
             (fun dc => (dc_usage_date dc, dc_project_id dc, dc_service_name dc))).
    change (NoDup (map (fun dc => (dc_usage_date dc, dc_project_id dc, dc_service_name dc))
                    (daily_costs tbl today days))).
    rewrite daily_costs_keys. apply NoDup_remove_dups. }
  assert (Hinj : forall x y, x ∈ g -> y ∈ g ->
            dc_project_id x = dc_project_id y ->
            dc_service_name x = dc_service_name y -> x = y).
  { intros x y Hx Hy Ep Es.
    destruct (Hg x Hx) as [Hx' Hdx]. destruct (Hg y Hy) as [Hy' Hdy].
    apply (NoDup_map_eq
             (fun dc => (dc_usage_date dc, dc_project_id dc, dc_service_name dc))
             (daily_costs tbl today days)); try assumption.
    - rewrite daily_costs_keys. apply NoDup_remove_dups.
    - congruence. }
  assert (Hsum : forall (f : daily_costs_row -> string),
            NoDup (map f g) ->
            map_total (costs_map (map (fun r => (f r, net r)) g)) = Fin (DailyTotal row)).
  { intros f Hf. rewrite map_total_costs_map.
    - rewrite map_map. cbn. now rewrite Htotal.
    - rewrite map_map. cbn. exact Hf. }
  cbn [trend_of_row ServiceCost ProjectCost TotalCost Date] in *.
  split; intros Huniq.
  - rewrite Hsc. apply Hsum.
    apply NoDup_fmap_2_strong; [|exact Hnd].
    intros x y Hx Hy Es. apply Hinj; try assumption.
    destruct (Hg x Hx) as [Hx' Hdx]. destruct (Hg y Hy) as [Hy' Hdy].
    destruct (daily_costs_row_of _ _ _ _ Hx') as (r1 & Hr1 & Hd1 & Hp1 & Hs1).
    destruct (daily_costs_row_of _ _ _ _ Hy') as (r2 & Hr2 & Hd2 & Hp2 & Hs2).
    rewrite <- Hp1, <- Hp2. apply Huniq; try assumption; unfold same_day; congruence.
  - rewrite Hpc. apply Hsum.
    apply NoDup_fmap_2_strong; [|exact Hnd].
    intros x y Hx Hy Ep. apply Hinj; try assumption.
    destruct (Hg x Hx) as [Hx' Hdx]. destruct (Hg y Hy) as [Hy' Hdy].
    destruct (daily_costs_row_of _ _ _ _ Hx') as (r1 & Hr1 & Hd1 & Hp1 & Hs1).
    destruct (daily_costs_row_of _ _ _ _ Hy') as (r2 & Hr2 & Hd2 & Hp2 & Hs2).
    rewrite <- Hs1, <- Hs2. apply Huniq; try assumption; unfold same_day; congruence.
Qed.

Lemma GetCostTrends_partition_witness :
  exists t1 t2,
    GetCostTrends with_credits 30 = Ok [t1; t2] /\
    map_total (ServiceCost t2) = TotalCost t2.
Proof.
  do 2 eexists. split; [reflexivity|].
  match goal with |- map_total (ServiceCost ?t2) = _ =>
    destruct (GetCostTrends_partition with_credits 30
                (match GetCostTrends with_credits 30 with Ok l => l | Err _ => [] end) t2)
      as [Hservice _]
  end.
  - vm_compute. reflexivity.
  - vm_compute. right. left.
  - apply Hservice. intros r1 r2 H1 H2 D1 D2 _.
    apply list_elem_of_In in H1, H2.
    destruct H1 as [<-|[<-|[<-|[]]]], H2 as [<-|[<-|[<-|[]]]];
      first [reflexivity | vm_compute in D1; discriminate D1
            | vm_compute in D2; discriminate D2].
Defined.

(** ** DetectAnomalies, further *)

(** *** The threshold as the query reads it *)

Lemma round_half_even_bounds (q : Q) :
  (q - (1 # 2) <= inject_Z (round_half_even q) <= q + (1 # 2))%Q.
Proof.
  unfold round_half_even.
  pose proof (Qfloor_le q) as Hlo. pose proof (Qlt_floor q) as Hhi.
  rewrite inject_Z_plus in Hhi. change (inject_Z 1) with 1%Q in Hhi.
  destruct (q - inject_Z (Qfloor q) ?= 1 # 2)%Q eqn:E.
  - apply Qeq_alt in E. destruct (Z.even (Qfloor q)).
    + lra.
    + rewrite inject_Z_plus. change (inject_Z 1) with 1%Q. lra.
  - apply Qlt_alt in E. lra.
  - apply Qgt_alt in E. rewrite inject_Z_plus. change (inject_Z 1) with 1%Q. lra.
Qed.

Lemma round_half_even_Qeq (p q : Q) :
  (p == q)%Q -> round_half_even p = round_half_even q.
Proof.
  intros E. unfold round_half_even. cbv zeta.
  rewrite (Qfloor_comp p q E).
  assert (E' : (p - inject_Z (Qfloor q) == q - inject_Z (Qfloor q))%Q) by now rewrite E.
  now rewrite (Qcompare_comp _ _ E' (1 # 2) (1 # 2) (Qeq_refl _)).
Qed.

Lemma round_half_even_mono (p q : Q) :
  (p <= q)%Q -> (round_half_even p <= round_half_even q)%Z.
Proof.
  intros Hpq.
  destruct (Z.le_gt_cases (round_half_even p) (round_half_even q)) as [|Hgt];
    [assumption|].
  exfalso.
  pose proof (round_half_even_bounds p) as [_ Hp].
  pose proof (round_half_even_bounds q) as [Hq _].
  assert (H1 : (inject_Z (round_half_even q) + 1 <= inject_Z (round_half_even p))%Q).
  { change 1%Q with (inject_Z 1). rewrite <- inject_Z_plus, <- Zle_Qle. lia. }
  assert (E : (p == q)%Q) by lra.
  apply round_half_even_Qeq in E. lia.
Qed.

Lemma Sprintf_f_mono (t t' : Qc) : (t <= t')%Qc -> (Sprintf_f t <= Sprintf_f t')%Qc.
Proof.
  intros Hle. unfold Sprintf_f. qc_to_q.
  assert (Hr : (round_half_even (this t * 1000000)
                <= round_half_even (this t' * 1000000))%Z).
  { apply round_half_even_mono. lra. }
  unfold Qle. cbn. lia.
Qed.

(** X5: with a threshold of 2 or more no finding is of severity Low:
    every finding is High or Medium. *)
Theorem DetectAnomalies_no_Low
    (ca : CostAnalytics) (days : Z) (t : Qc) (anomalies : list Anomaly) (a : Anomaly) :
  (Q2Qc 2 <= t)%Qc ->
  DetectAnomalies ca days (Fin t) = Ok anomalies ->
  a ∈ anomalies ->
  Severity a = "High" \/ Severity a = "Medium".
Proof.
  intros Ht Hok Ha.
  destruct (DetectAnomalies_finding _ _ _ _ _ Hok Ha)
    as (t' & r & sd & z & [= <-] & _ & _ & _ & _ & _ & Hlt & ->).
  cbn [anomaly_of_row Severity row_ZScore].
  assert (H2 : (Q2Qc 2 < z)%Qc).
  { eapply Qcle_lt_trans; [|exact Hlt].
    replace (Q2Qc 2) with (Sprintf_f (Q2Qc 2)) by compute_done.
    now apply Sprintf_f_mono. }
  destruct (severity_tiers z) as (Hhigh & Hmedium & _).
  destruct (Qclt_le_dec (Q2Qc 3) z); [left; auto | right; auto].
Qed.

Lemma DetectAnomalies_no_Low_witness :
  exists a,
    DetectAnomalies spike 30 (Fin (Q2Qc 2)) = Ok [a] /\
    (Severity a = "High" \/ Severity a = "Medium").
Proof.
  eexists. split; [vm_compute; reflexivity|].
  match goal with |- Severity ?a = _ \/ _ =>
    apply (DetectAnomalies_no_Low spike 30 (Q2Qc 2) [a] a)
  end.
  - apply Qcle_refl.
  - vm_compute; reflexivity.
  - left.
Defined.

(** X6: raising the threshold never adds a finding: what is found with
    the higher threshold is found with the lower one. *)
Theorem DetectAnomalies_threshold_monotone
    (ca : CostAnalytics) (days : Z) (t t' : Qc) (low high : list Anomaly) (a : Anomaly) :
  (t <= t')%Qc ->
  DetectAnomalies ca days (Fin t) = Ok low ->
  DetectAnomalies ca days (Fin t') = Ok high ->
  a ∈ high -> a ∈ low.
Proof.
  intros Hle Hlow Hhigh Ha.
  apply DetectAnomalies_Ok in Hlow as (_ & t0 & [= <-] & ->).
  apply DetectAnomalies_Ok in Hhigh as (_ & t0 & [= <-] & ->).
  apply list_elem_of_fmap in Ha as (row & -> & Hrow).
  apply list_elem_of_fmap_2.
  apply elem_of_anomaly_query in Hrow as (r & st & Hr & Hst & Hrow).
  apply elem_of_anomaly_query. exists r, st. split; [exact Hr|]. split; [exact Hst|].
  apply elem_of_joined in Hrow as (Hp & Hs & sd & z & Hsd & Hz & Hlt & ->).
  apply elem_of_joined. repeat split; try assumption.
  exists sd, z. repeat split; try assumption.
  eapply Qcle_lt_trans; [|exact Hlt]. now apply Sprintf_f_mono.
Qed.

Lemma DetectAnomalies_threshold_monotone_witness :
  exists a,
    DetectAnomalies spike 30 (Fin (Q2Qc 3)) = Ok [a] /\
    a ∈ match DetectAnomalies spike 30 (Fin (Q2Qc 2)) with Ok l => l | Err _ => [] end.
Proof.
  eexists. split; [vm_compute; reflexivity|].
  match goal with |- ?a ∈ _ =>
    apply (DetectAnomalies_threshold_monotone spike 30 (Q2Qc 2) (Q2Qc 3) _ [a] a)
  end.
  - vm_compute; discriminate.
  - vm_compute; reflexivity.
  - vm_compute; reflexivity.
  - left.
Defined.

(** *** What a finding reports *)

Lemma elem_of_daily_cost_rows (rows : list BillingRow) (h : daily_cost_row) :
  h ∈ daily_cost_rows rows ->
  (exists r, r ∈ rows /\
     DATE (usage_start_time r) = usage_date h /\
     project_id r = row_project_id h /\
     service_description r = row_service_name h) /\
  daily_cost h =
    total (map net_cost
             (filter (fun r => (DATE (usage_start_time r), project_id r,
                                service_description r)
                               = (usage_date h, row_project_id h, row_service_name h))
                rows)).
Proof.
  unfold daily_cost_rows. intros Hh.
  apply list_elem_of_fmap in Hh as ([[[d p] s] g] & -> & Hg).
  apply elem_of_GROUP_BY in Hg as [Hk ->]. cbn. split; [|reflexivity].
  apply list_elem_of_fmap in Hk as (r & [= -> -> ->] & Hr). eauto.
Qed.

(** X7: a finding is about yesterday: it is dated the day before
    [CURRENT_DATE()], and its actual cost is the sum of cost plus
    credits over yesterday's rows of its project and service, of which
    there is at least one. *)
Theorem DetectAnomalies_yesterday
    (ca : CostAnalytics) (days : Z) (threshold : float64)
    (anomalies : list Anomaly) (a : Anomaly) :
  DetectAnomalies ca days threshold = Ok anomalies ->
  a ∈ anomalies ->
  let yesterday := (CURRENT_DATE (bqClient ca) - 1)%Z in
  let rows :=
    filter (fun r => DATE (usage_start_time r) = yesterday /\
                     project_id r = ProjectID a /\
                     service_description r = ServiceName a)
      (table (bqClient ca)) in
  anomaly_Date a = yesterday /\
  rows <> [] /\
  ActualCost a = Fin (total (map net_cost rows)).
Proof.
  intros Hok Ha yesterday rows.
  destruct (DetectAnomalies_finding _ _ _ _ _ Hok Ha)
    as (t & r & sd & z & _ & Hr & _ & _ & _ & _ & _ & Heq).
  unfold recent_costs in Hr.
  apply elem_of_daily_cost_rows in Hr as [(b & Hb & Hd & Hp & Hs) Hcost].
  apply list_elem_of_filter in Hb as [Hy Hb].
  assert (Hdate : usage_date r = yesterday) by (unfold yesterday; congruence).
  assert (HP : ProjectID a = row_project_id r) by now rewrite Heq.
  assert (HS : ServiceName a = row_service_name r) by now rewrite Heq.
  split; [now rewrite Heq|]. split.
  - intros Hnil.
    assert (Hin : b ∈ rows).
    { apply list_elem_of_filter. split; [|exact Hb]. unfold yesterday. 
      split; [congruence|]. split; congruence. }
    rewrite Hnil in Hin. inversion Hin.
  - transitivity (Fin (daily_cost r)); [now rewrite Heq|].
    f_equal. rewrite Hcost. do 2 f_equal. unfold rows.
    rewrite list_filter_filter. apply list_filter_iff. intros x.
    rewrite HP, HS, Hdate. fold yesterday. split.
    + intros [[= E1 E2 E3] E4]. auto.
    + intros (E1 & E2 & E3). split; congruence.
Qed.

Lemma DetectAnomalies_yesterday_witness :
  exists a,
    DetectAnomalies spike 30 (Fin (Q2Qc 2)) = Ok [a] /\
    anomaly_Date a = 99%Z /\
    ActualCost a = Fin (Q2Qc 40).
Proof.
  eexists. split; [vm_compute; reflexivity|].
  match goal with |- anomaly_Date ?a = _ /\ _ =>
    destruct (DetectAnomalies_yesterday spike 30 (Fin (Q2Qc 2)) [a] a)
      as (Hdate & _ & Hcost)
  end.
  - vm_compute; reflexivity.
  - left.
  - split; [exact Hdate|]. rewrite Hcost. compute_done.
Defined.

(** *** One finding for a pair, the largest z-score first *)

Lemma daily_cost_rows_keys (rows : list BillingRow) :
  map (fun h => (usage_date h, row_project_id h, row_service_name h))
      (daily_cost_rows rows) =
  remove_dups
    (map (fun r => (DATE (usage_start_time r), project_id r, service_description r)) rows).
Proof.
  unfold daily_cost_rows. rewrite map_map, <- GROUP_BY_keys.
  apply map_ext. now intros [[[d p] s] g].
Qed.

Lemma recent_costs_pairs (tbl : list BillingRow) (today : Z) :
  NoDup (map (fun h => (row_project_id h, row_service_name h)) (recent_costs tbl today)).
Proof.
  unfold recent_costs.
  set (rows := filter _ tbl).
  assert (Hd : forall h, h ∈ daily_cost_rows rows -> usage_date h = (today - 1)%Z).
  { intros h Hh. apply elem_of_daily_cost_rows in Hh as [(r & Hr & <- & _) _].
    apply list_elem_of_filter in Hr as [Hr _]. exact Hr. }
  pose proof (daily_cost_rows_keys rows) as Hk.
  assert (Hnd : NoDup (map (fun h => (usage_date h, row_project_id h, row_service_name h))
                         (daily_cost_rows rows)))
    by (rewrite Hk; apply NoDup_remove_dups).
  clear Hk. induction (daily_cost_rows rows) as [|h l IH]; cbn; [constructor|].
  cbn in Hnd. apply NoDup_cons in Hnd as [Hnotin Hnd].
  apply NoDup_cons. split.
  - intros Hin. apply Hnotin.
    apply list_elem_of_fmap in Hin as (h' & [= Ep Es] & Hh').
    apply list_elem_of_fmap. exists h'. split; [|exact Hh'].
    rewrite (Hd h) by left. rewrite (Hd h') by now right. congruence.
  - apply IH; [|exact Hnd]. intros h' Hh'. apply Hd. now right.
Qed.

Lemma stats_pairs (sqrt : Qc -> Qc) (tbl : list BillingRow) (today days : Z) :
  NoDup (map (fun st => (stats_project_id st, stats_service_name st))
           (stats sqrt tbl today days)).
Proof.
  unfold stats.
  eapply sublist_NoDup; [|apply fmap_sublist, sublist_filter].
  rewrite map_map.
  rewrite (map_ext _ fst) by now intros [[p s] g].
  rewrite GROUP_BY_keys. apply NoDup_remove_dups.
Qed.

Lemma bind_nil_all {A B : Type} (f : A -> list B) (l : list A) :
  (forall x, x ∈ l -> f x = []) -> l ≫= f = [].
Proof.
  induction l as [|a l IH]; intros H; [reflexivity|].
  rewrite bind_cons, (H a) by left. cbn. apply IH. intros x Hx. apply H. now right.
Qed.

Lemma joined_pair (T : Qc) (r : daily_cost_row) (st : stats_row) (row : anomaly_row) :
  row ∈ joined T r st ->
  (row_ProjectID row, row_ServiceName row) = (row_project_id r, row_service_name r) /\
  (stats_project_id st, stats_service_name st) = (row_project_id r, row_service_name r).
Proof.
  intros H. apply elem_of_joined in H as (Hp & Hs & sd & z & _ & _ & _ & ->). cbn.
  split; congruence.
Qed.

Lemma joined_at_most_one (T : Qc) (r : daily_cost_row) (st : stats_row) :
  joined T r st = [] \/ exists row, joined T r st = [row].
Proof.
  unfold joined. case_decide; [|now left].
  destruct (z_score r st), (stddev_cost st); try now left.
  destruct (Qc_ltb T q); [right; eauto | now left].
Qed.

Lemma joined_one_for_a_pair (T : Qc) (r : daily_cost_row) (sts : list stats_row) :
  NoDup (map (fun st => (stats_project_id st, stats_service_name st)) sts) ->
  map (fun row => (row_ProjectID row, row_ServiceName row)) (sts ≫= joined T r)
    `sublist_of` [(row_project_id r, row_service_name r)].
Proof.
  induction sts as [|st sts IH]; intros Hnd; [apply sublist_nil_l|].
  cbn in Hnd. apply NoDup_cons in Hnd as [Hnotin Hnd].
  rewrite bind_cons.
  destruct (joined_at_most_one T r st) as [E | [row E]]; rewrite E; cbn.
  - now apply IH.
  - assert (Hrow : row ∈ joined T r st) by (rewrite E; left).
    apply joined_pair in Hrow as [Hk Hst].
    rewrite bind_nil_all.
    + cbn. rewrite Hk. reflexivity.
    + intros st' Hst'.
      destruct (joined_at_most_one T r st') as [E' | [row' E']]; [exact E'|].
      exfalso. apply Hnotin.
      assert (Hrow' : row' ∈ joined T r st') by (rewrite E'; left).
      apply joined_pair in Hrow' as [_ Hst'']. rewrite Hst, <- Hst''.
      now apply (list_elem_of_fmap_2 (fun st => (stats_project_id st, stats_service_name st))).
Qed.

Lemma anomaly_query_pairs (sqrt : Qc -> Qc) (tbl : list BillingRow) (today days : Z)
    (T : Qc) :
  NoDup (map (fun row => (row_ProjectID row, row_ServiceName row))
           (anomaly_query sqrt tbl today days T)).
Proof.
  unfold anomaly_query. rewrite ORDER_BY_Permutation.
  pose proof (recent_costs_pairs tbl today) as Hr.
  pose proof (stats_pairs sqrt tbl today days) as Hs.
  induction (recent_costs tbl today) as [|r rs IH]; [constructor|].
  cbn in Hr. apply NoDup_cons in Hr as [Hnotin Hr].
  rewrite bind_cons, fmap_app. apply NoDup_app. split; [|split].
  - eapply sublist_NoDup; [|apply joined_one_for_a_pair, Hs].
    apply NoDup_singleton.
  - intros k Hk Hk'.
    eapply elem_of_sublist in Hk; [|apply joined_one_for_a_pair, Hs].
    apply list_elem_of_singleton in Hk as ->.
    apply Hnotin.
    apply list_elem_of_fmap in Hk' as (row & Hk & Hrow).
    apply list_elem_of_bind in Hrow as (r' & Hrow & Hr').
    apply list_elem_of_bind in Hrow as (st & Hrow & _).
    apply joined_pair in Hrow as [Hrow _].
    apply list_elem_of_fmap. exists r'. split; [congruence | exact Hr'].
  - now apply IH.
Qed.

(** X8: there is at most one finding for a project and service: the
    pairs of the findings are pairwise distinct. *)
Theorem DetectAnomalies_one_for_a_pair
    (ca : CostAnalytics) (days : Z) (threshold : float64) (anomalies : list Anomaly) :
  DetectAnomalies ca days threshold = Ok anomalies ->
  NoDup (map (fun a => (ProjectID a, ServiceName a)) anomalies).
Proof.
  intros Hok. apply DetectAnomalies_Ok in Hok as (_ & t & _ & ->).
  rewrite map_map. cbn. apply anomaly_query_pairs.
Qed.

Lemma DetectAnomalies_one_for_a_pair_witness :
  exists a1 a2,
    DetectAnomalies two_spikes 30 (Fin (Q2Qc 2)) = Ok [a1; a2] /\
    NoDup [(ProjectID a1, ServiceName a1); (ProjectID a2, ServiceName a2)].
Proof.
  do 2 eexists. split; [vm_compute; reflexivity|].
  apply (DetectAnomalies_one_for_a_pair two_spikes 30 (Fin (Q2Qc 2)) [_; _]).
  vm_compute. reflexivity.
Defined.

Lemma severity_rank_mono (z z' : Qc) :
  (z <= z')%Qc ->
  severity_rank (severity (Fin z)) <= severity_rank (severity (Fin z')).
Proof.
  intros Hle. unfold severity. cbn [flt].
  destruct (Qc_ltb (Q2Qc 3) z) eqn:E3.
  - apply Qc_ltb_lt in E3.
    assert (E3' : Qc_ltb (Q2Qc 3) z' = true)
      by (apply Qc_ltb_lt; eapply Qclt_le_trans; eassumption).
    rewrite E3'. reflexivity.
  - destruct (Qc_ltb (Q2Qc 2) z) eqn:E2.
    + apply Qc_ltb_lt in E2.
      assert (E2' : Qc_ltb (Q2Qc 2) z' = true)
        by (apply Qc_ltb_lt; eapply Qclt_le_trans; eassumption).
      rewrite E2'. destruct (Qc_ltb (Q2Qc 3) z'); vm_compute; lia.
    + destruct (Qc_ltb (Q2Qc 3) z'), (Qc_ltb (Q2Qc 2) z'); vm_compute; lia.
Qed.

(** X9: the findings come with the most severe first: the query orders
    them by falling z-score, and the tiers follow the z-score, so that
    no finding is followed by one of a higher severity. *)
Theorem DetectAnomalies_most_severe_first
    (ca : CostAnalytics) (days : Z) (threshold : float64) (anomalies : list Anomaly) :
  DetectAnomalies ca days threshold = Ok anomalies ->
  StronglySorted
    (fun a b => severity_rank (Severity b) <= severity_rank (Severity a)) anomalies.
Proof.
  intros Hok. apply DetectAnomalies_Ok in Hok as (_ & t & _ & ->).
  unfold anomaly_query.
  set (rows := _ ≫= _).
  assert (Hs : StronglySorted (fun a b => (row_ZScore b <= row_ZScore a)%Qc)
                 (ORDER_BY (fun a b => Qc_leb (row_ZScore b) (row_ZScore a)) rows)).
  { apply ORDER_BY_StronglySorted.
    - intros x y z Hxy Hyz. eapply Qcle_trans; eassumption.
    - intros x y Hxy. now apply bool_decide_eq_true in Hxy.
    - intros x y Hxy. apply bool_decide_eq_false in Hxy.
      apply Qclt_le_weak, Qcnot_le_lt, Hxy. }
  induction Hs as [|r l Hl IH Hr]; cbn; constructor.
  - exact IH.
  - apply Forall_fmap. eapply Forall_impl; [exact Hr|].
    intros x Hx. cbn. now apply severity_rank_mono.
Qed.

Lemma DetectAnomalies_most_severe_first_witness :
  exists a1 a2,
    DetectAnomalies two_spikes 30 (Fin (Q2Qc 2)) = Ok [a1; a2] /\
    Severity a1 = "High" /\ Severity a2 = "Medium" /\
    StronglySorted
      (fun a b => severity_rank (Severity b) <= severity_rank (Severity a)) [a1; a2].
Proof.
  do 2 eexists. split; [vm_compute; reflexivity|].
  split; [reflexivity|]. split; [reflexivity|].
  apply (DetectAnomalies_most_severe_first two_spikes 30 (Fin (Q2Qc 2))).
  vm_compute. reflexivity.
Defined.

(** ** More on ForecastCosts *)

Lemma ForecastCosts_Ok (ca : CostAnalytics) (days : Z) (forecasts : list CostTrend) :
  ForecastCosts ca days = Ok forecasts ->
  exists trends,
    GetCostTrends ca 30 = Ok trends /\
    7 <= length trends /\
    forecasts =
      map (forecast_point trends (regression trends).1 (regression trends).2)
        (seqZ 1 days).
Proof.
  intros H. destruct (GetCostTrends ca 30) as [trends|e] eqn:E.
  - rewrite (ForecastCosts_unfold _ _ _ E) in H.
    destruct (Z.ltb_spec (Z.of_nat (length trends)) 7); [discriminate|].
    injection H as <-. exists trends. split; [reflexivity|]. split; [lia | reflexivity].
  - unfold ForecastCosts in H. rewrite E in H. discriminate.
Qed.

Lemma regression_finite (ca : CostAnalytics) (trends : list CostTrend) :
  GetCostTrends ca 30 = Ok trends ->
  2 <= length trends ->
  exists slope intercept : Qc, regression trends = (Fin slope, Fin intercept).
Proof.
  intros H Hlen. destruct (GetCostTrends_finite _ _ _ H) as [ys Hys].
  assert (Hl : length ys = length trends).
  { apply (f_equal length) in Hys. now rewrite !length_map in Hys. }
  destruct (ols_least_squares ys) as (s & c & Hs & Hc & _); [lia|].
  exists s, c. now rewrite regression_ols, Hys, Hs, Hc.
Qed.

Lemma last_trend_finite (ca : CostAnalytics) (trends : list CostTrend) :
  GetCostTrends ca 30 = Ok trends ->
  exists l : Qc, TotalCost (last_trend trends) = Fin l.
Proof.
  intros H. destruct (GetCostTrends_finite _ _ _ H) as [ys Hys].
  unfold last_trend. destruct (last trends) as [t|] eqn:E; [|now exists 0%Qc].
  cbn. apply last_Some in E as [l' ->].
  rewrite map_app in Hys. cbn in Hys.
  assert (Hlast : last (map TotalCost l' ++ [TotalCost t]) = Some (TotalCost t))
    by apply last_snoc.
  rewrite Hys in Hlast.
  destruct (last ys) as [y|] eqn:Ey.
  - exists y. rewrite fmap_last, Ey in Hlast. cbn in Hlast. congruence.
  - rewrite fmap_last, Ey in Hlast. discriminate.
Qed.

Lemma forecast_totals_finite (ca : CostAnalytics) (days : Z) (forecasts : list CostTrend) :
  ForecastCosts ca days = Ok forecasts ->
  Forall (fun f => is_finite (TotalCost f) = true /\
                   ServiceCost f = ∅ /\ ProjectCost f = ∅) forecasts.
Proof.
  intros H. apply ForecastCosts_Ok in H as (trends & Ht & Hlen & ->).
  destruct (regression_finite _ _ Ht) as (s & c & ->); [lia|].
  destruct (last_trend_finite _ _ Ht) as [l Hl].
  apply Forall_fmap, Forall_forall. intros i _.
  unfold compose. rewrite forecast_point_spec. cbn [ForecastPoint TotalCost fst snd].
  rewrite Hl. unfold floored, float64_of_int. cbn [fmul fadd].
  split; [|split; reflexivity].
  match goal with |- context [if ?b then _ else _] => destruct b end; reflexivity.
Qed.

(** X10: the totals of a forecast are numbers: with seven points or
    more the regression does not divide by zero, so that no total is
    a NaN or an infinity. *)
Theorem ForecastCosts_finite
    (ca : CostAnalytics) (days : Z) (forecasts : list CostTrend) :
  ForecastCosts ca days = Ok forecasts ->
  Forall (fun f => is_finite (TotalCost f) = true) forecasts.
Proof.
  intros H. apply forecast_totals_finite in H.
  eapply Forall_impl; [exact H|]. now intros f [Hf _].
Qed.

Lemma ForecastCosts_finite_witness :
  Forall (fun f => is_finite (TotalCost f) = true)
    (match ForecastCosts falling 2 with Ok l => l | Err _ => [] end).
Proof.
  apply (ForecastCosts_finite falling 2). vm_compute. reflexivity.
Defined.

(** X11: when the last historical total is not negative, no forecast
    total is negative. *)
Theorem ForecastCosts_nonnegative
    (ca : CostAnalytics) (days : Z) (trends forecasts : list CostTrend) (f : CostTrend) :
  GetCostTrends ca 30 = Ok trends ->
  flt (TotalCost (last_trend trends)) (Fin 0) = false ->
  ForecastCosts ca days = Ok forecasts ->
  f ∈ forecasts ->
  exists q : Qc, TotalCost f = Fin q /\ (0 <= q)%Qc.
Proof.
  intros Ht Hlast H Hf. apply ForecastCosts_Ok in H as (trends' & Ht' & Hlen & ->).
  assert (trends' = trends) as -> by congruence.
  destruct (last_trend_finite _ _ Ht) as [l Hl].
  apply list_elem_of_fmap in Hf as (i & -> & _).
  rewrite forecast_point_spec. cbn [ForecastPoint TotalCost].
  rewrite Hl in *. cbn in Hlast. apply Qc_ltb_ge in Hlast.
  destruct (regression_finite _ _ Ht) as (s & c & E); [lia|].
  rewrite E. cbn [fst snd]. unfold floored, float64_of_int. cbn [fmul fadd flt].
  set (p := (s * Qc_of_Z (Z.of_nat (length trends) + i - 1) + c)%Qc).
  destruct (Qc_ltb p (Q2Qc 0)) eqn:Eneg.
  - exists (l * Q2Qc 0.9)%Qc. split; [reflexivity|]. clear -Hlast. qc_to_q. lra.
  - exists p. split; [reflexivity|]. now apply Qc_ltb_ge.
Qed.

Lemma ForecastCosts_nonnegative_witness :
  exists f rest,
    ForecastCosts sinking 2 = Ok (f :: rest) /\
    exists q : Qc, TotalCost f = Fin q /\ (0 <= q)%Qc.
Proof.
  do 2 eexists. split; [vm_compute; reflexivity|].
  match goal with |- exists q, TotalCost ?f = _ /\ _ =>
    apply (ForecastCosts_nonnegative sinking 2
             (match GetCostTrends sinking 30 with Ok t => t | Err _ => [] end)
             (match ForecastCosts sinking 2 with Ok l => l | Err _ => [] end) f)
  end.
  - vm_compute. reflexivity.
  - vm_compute. reflexivity.
  - vm_compute. reflexivity.
  - vm_compute. left.
Defined.

(** X12: asking for a longer forecast does not change the earlier
    points: the forecast for [d] days is the beginning of the forecast
    for [d' >= d] days. *)
Theorem ForecastCosts_prefix
    (ca : CostAnalytics) (d d' : Z) (short long : list CostTrend) :
  (d <= d')%Z ->
  ForecastCosts ca d = Ok short ->
  ForecastCosts ca d' = Ok long ->
  short = take (Z.to_nat d) long.
Proof.
  intros Hle Hs Hl.
  apply ForecastCosts_Ok in Hs as (trends & Ht & _ & ->).
  apply ForecastCosts_Ok in Hl as (trends' & Ht' & _ & ->).
  assert (trends' = trends) as -> by congruence.
  rewrite <- fmap_take. f_equal.
  destruct (Z.le_gt_cases d 0) as [Hd | Hd].
  - rewrite seqZ_nil by exact Hd. now replace (Z.to_nat d) with 0%nat by lia.
  - replace d' with (d + (d' - d))%Z by lia.
    rewrite seqZ_app by lia.
    rewrite take_app_length'; [reflexivity|]. now rewrite length_seqZ.
Qed.

Lemma ForecastCosts_prefix_witness :
  exists long,
    ForecastCosts (rising 3) 3 = Ok long /\
    match ForecastCosts (rising 3) 2 with Ok l => l | Err _ => [] end = take 2 long.
Proof.
  eexists. split; [vm_compute; reflexivity|].
  apply (ForecastCosts_prefix (rising 3) 2 3).
  - lia.
  - vm_compute. reflexivity.
  - vm_compute. reflexivity.
Defined.

(** *** A history on a line *)







(** ** UpdateGoogleSheets *)

Lemma top_service_snoc (entries : list (string * float64)) (service : string)
    (cost : float64) :
  top_service (entries ++ [(service, cost)]) =
    if flt (top_service entries).2 cost then (service, cost) else top_service entries.
Proof.
  unfold top_service. rewrite fold_left_app. cbn [fold_left].
  destruct (fold_left _ entries _) as [topService topCost]. cbn [snd].
  reflexivity.
Qed.

(** The loop over the services of a day, on numbers: the top cost is
    the largest cost, or zero when no cost is above zero; the top
    service is one that has it, or the empty text. *)
Lemma top_service_spec (entries : list (string * float64)) :
  Forall (fun e => is_finite e.2 = true) entries ->
  exists q : Qc,
    (top_service entries).2 = Fin q /\
    (forall s v, (s, Fin v) ∈ entries -> (v <= q)%Qc) /\
    (((top_service entries).1 = "" /\ q = Q2Qc 0) \/
     ((Q2Qc 0 < q)%Qc /\ ((top_service entries).1, Fin q) ∈ entries)).
Proof.
  induction entries as [|[service cost] entries IH] using rev_ind; intros Hfin.
  - exists (Q2Qc 0). split; [reflexivity|]. split; [|now left].
    intros s v Hin. inversion Hin.
  - apply Forall_app in Hfin as [Hfin Hcost].
    rewrite Forall_singleton in Hcost. cbn in Hcost.
    destruct cost as [c| | |]; try discriminate Hcost.
    destruct (IH Hfin) as (q & Hq & Hmax & Htop).
    rewrite top_service_snoc, Hq. cbn [flt].
    destruct (Qc_ltb q c) eqn:E.
    + apply Qc_ltb_lt in E. exists c. cbn [fst snd]. split; [reflexivity|]. split.
      * intros s v Hin. apply elem_of_app in Hin as [Hin | Hin].
        -- apply Qclt_le_weak. eapply Qcle_lt_trans; [|exact E]. eapply Hmax, Hin.
        -- apply list_elem_of_singleton in Hin as [= _ ->]. apply Qcle_refl.
      * right. split.
        -- eapply Qcle_lt_trans; [|exact E].
           destruct Htop as [[_ ->] | [Hpos _]]; [apply Qcle_refl | now apply Qclt_le_weak].
        -- apply elem_of_app. right. left.
    + apply Qc_ltb_ge in E. exists q. split; [exact Hq|]. split.
      * intros s v Hin. apply elem_of_app in Hin as [Hin | Hin].
        -- eapply Hmax, Hin.
        -- apply list_elem_of_singleton in Hin as [= _ ->]. exact E.
      * destruct Htop as [Hzero | [Hpos Hin]]; [now left|]. right.
        split; [exact Hpos|]. apply elem_of_app. now left.
Qed.

Lemma top_service_of_map (entries : list (string * float64)) (m : gmap string float64) :
  entries ≡ₚ map_to_list m ->
  map_Forall (fun _ v => is_finite v = true) m ->
  exists (s : string) (q : Qc),
    top_service entries = (s, Fin q) /\
    (forall k v, m !! k = Some (Fin v) -> (v <= q)%Qc) /\
    ((s = "" /\ q = Q2Qc 0) \/ ((Q2Qc 0 < q)%Qc /\ m !! s = Some (Fin q))).
Proof.
  intros Hperm Hfin.
  assert (Hin : forall k v, (k, v) ∈ entries <-> m !! k = Some v).
  { intros k v. rewrite Hperm. apply elem_of_map_to_list. }
  destruct (top_service_spec entries) as (q & Hq & Hmax & Htop).
  { apply Forall_forall. intros [k v] Hkv. apply Hin in Hkv. exact (Hfin k v Hkv). }
  exists (top_service entries).1, q. split.
  { rewrite <- Hq. now destruct (top_service entries). }
  split.
  - intros k v Hk. apply (Hmax k). now apply Hin.
  - destruct Htop as [Hzero | [Hpos Htop]]; [now left|]. right.
    split; [exact Hpos|]. now apply Hin.
Qed.

Lemma UpdateGoogleSheets_first_call (go : Go) (sheetsClient : SheetsService)
    (calls : list UpdateCall) (spreadsheetID : string)
    (trends : list CostTrend) (anomalies : list Anomaly) :
  (UpdateGoogleSheets go sheetsClient calls spreadsheetID trends anomalies).1
    !! length calls =
  Some (trendsUpdate go spreadsheetID trends).
Proof.
  unfold UpdateGoogleSheets. cbn zeta.
  destruct (Do sheetsClient calls _); [|destruct (Do sheetsClient (calls ++ _) _)];
    cbn [fst]; rewrite <- ?app_assoc; now apply list_lookup_middle.
Qed.

(** X14: the row of a day in the sheet of the trends: its date, its
    total, and the top service with its cost.  Whatever the order in
    which the services of the day are visited, the top cost is the
    largest cost of a service, and zero when no service costs more
    than zero; the top service is a service with that cost, and the
    empty text when no service costs more than zero. *)
Theorem UpdateGoogleSheets_top_service
    (go : Go) (sheetsClient : SheetsService) (calls : list UpdateCall)
    (spreadsheetID : string) (trends : list CostTrend) (anomalies : list Anomaly)
    (i : nat) (t : CostTrend) :
  (forall j m, range go j m ≡ₚ map_to_list m) ->
  trends !! i = Some t ->
  map_Forall (fun _ v => is_finite v = true) (ServiceCost t) ->
  exists (call : UpdateCall) (topService : string) (topCost : Qc),
    (UpdateGoogleSheets go sheetsClient calls spreadsheetID trends anomalies).1
      !! length calls = Some call /\
    call_range call = "Trends!A1" /\
    call_values call !! S i =
      Some [ Text (Format go (Date t)); Number (TotalCost t);
             Text topService; Number (Fin topCost) ] /\
    (forall k v, ServiceCost t !! k = Some (Fin v) -> (v <= topCost)%Qc) /\
    ((topService = "" /\ topCost = Q2Qc 0) \/
     ((Q2Qc 0 < topCost)%Qc /\ ServiceCost t !! topService = Some (Fin topCost))).
Proof.
  intros Hrange Ht Hfin.
  destruct (top_service_of_map (range go i (ServiceCost t)) (ServiceCost t))
    as (s & q & Htop & Hmax & Hs); [apply Hrange | exact Hfin |].
  eexists _, s, q. split; [apply UpdateGoogleSheets_first_call|].
  split; [reflexivity|]. split; [|split; assumption].
  cbn [call_values]. unfold trendValues.
  change (imap (trend_cells go) trends !! i =
            Some [ Text (Format go (Date t)); Number (TotalCost t);
                   Text s; Number (Fin q) ]).
  rewrite list_lookup_imap, Ht. cbn. unfold trend_cells. now rewrite Htop.
Qed.

Lemma UpdateGoogleSheets_top_service_witness :
  let trends := match GetCostTrends with_credits 30 with Ok ts => ts | Err _ => [] end in
  let t := default zero_CostTrend (trends !! 1%nat) in
  exists (call : UpdateCall) (topService : string) (topCost : Qc),
    (UpdateGoogleSheets golang accepting [] "sheet" trends []).1 !! 0%nat = Some call /\
    call_range call = "Trends!A1" /\
    call_values call !! 2%nat =
      Some [ Text (Format golang (Date t)); Number (TotalCost t);
             Text topService; Number (Fin topCost) ] /\
    (forall k v, ServiceCost t !! k = Some (Fin v) -> (v <= topCost)%Qc) /\
    ((topService = "" /\ topCost = Q2Qc 0) \/
     ((Q2Qc 0 < topCost)%Qc /\ ServiceCost t !! topService = Some (Fin topCost))).
Proof.
  intros trends t.
  apply (UpdateGoogleSheets_top_service golang accepting [] "sheet" trends [] 1 t).
  - intros j m. reflexivity.
  - vm_compute. reflexivity.
  - compute_done.
Defined.

Lemma top_service_determined (m : gmap string float64)
    (s s' : string) (q q' : Qc) :
  (forall k k' v, m !! k = Some v -> m !! k' = Some v -> flt (Fin 0) v = true -> k = k') ->
  (forall k v, m !! k = Some (Fin v) -> (v <= q)%Qc) ->
  ((s = "" /\ q = Q2Qc 0) \/ ((Q2Qc 0 < q)%Qc /\ m !! s = Some (Fin q))) ->
  (forall k v, m !! k = Some (Fin v) -> (v <= q')%Qc) ->
  ((s' = "" /\ q' = Q2Qc 0) \/ ((Q2Qc 0 < q')%Qc /\ m !! s' = Some (Fin q'))) ->
  (s, q) = (s', q').
Proof.
  intros Huniq Hmax [[-> ->] | [Hpos Hs]] Hmax' [[-> ->] | [Hpos' Hs']].
  - reflexivity.
  - exfalso. apply Hmax in Hs'. apply (Qclt_not_le _ _ Hpos' Hs').
  - exfalso. apply Hmax' in Hs. apply (Qclt_not_le _ _ Hpos Hs).
  - assert (q = q') as <-.
    { apply Qcle_antisym; [eapply Hmax', Hs | eapply Hmax, Hs']. }
    f_equal. apply (Huniq s s' (Fin q) Hs Hs'). cbn. now apply Qc_ltb_lt.
Qed.

(** X15: what is written does not depend on the order in which Go
    visits the services of a day, as long as no two services of a day
    have the same cost above zero. *)
Theorem UpdateGoogleSheets_any_order
    (go : Go) (order : nat -> gmap string float64 -> list (string * float64))
    (sheetsClient : SheetsService) (calls : list UpdateCall)
    (spreadsheetID : string) (trends : list CostTrend) (anomalies : list Anomaly) :
  (forall j m, range go j m ≡ₚ map_to_list m) ->
  (forall j m, order j m ≡ₚ map_to_list m) ->
  (forall t, t ∈ trends ->
     map_Forall (fun _ v => is_finite v = true) (ServiceCost t) /\
     forall k k' v, ServiceCost t !! k = Some v -> ServiceCost t !! k' = Some v ->
                    flt (Fin 0) v = true -> k = k') ->
  UpdateGoogleSheets (with_range go order) sheetsClient calls spreadsheetID trends anomalies
  = UpdateGoogleSheets go sheetsClient calls spreadsheetID trends anomalies.
Proof.
  intros Hgo Horder Htrends.
  assert (Hvalues : trendValues (with_range go order) trends = trendValues go trends).
  { unfold trendValues. f_equal. apply list_eq. intros i.
    rewrite !list_lookup_imap. destruct (trends !! i) as [t|] eqn:Ht; [|reflexivity].
    cbn. f_equal. destruct (Htrends t) as [Hfin Huniq]; [eapply list_elem_of_lookup_2, Ht|].
    unfold trend_cells. cbn [range with_range Format].
    destruct (top_service_of_map (range go i (ServiceCost t)) (ServiceCost t))
      as (s & q & -> & Hmax & Hs); [apply Hgo | exact Hfin |].
    destruct (top_service_of_map (order i (ServiceCost t)) (ServiceCost t))
      as (s' & q' & -> & Hmax' & Hs'); [apply Horder | exact Hfin |].
    assert (E : (s', q') = (s, q)) by (eapply top_service_determined; eassumption).
    now injection E as -> ->. }
  unfold UpdateGoogleSheets, trendsUpdate. cbn zeta. rewrite Hvalues. reflexivity.
Qed.

Lemma UpdateGoogleSheets_any_order_witness :
  UpdateGoogleSheets (with_range golang (fun _ m => reverse (map_to_list m)))
    accepting [] "sheet" (trends_of with_credits 30) []
  = UpdateGoogleSheets golang accepting [] "sheet" (trends_of with_credits 30) [].
Proof.
  apply UpdateGoogleSheets_any_order.
  - intros j m. reflexivity.
  - intros j m. apply reverse_Permutation.
  - intros t Ht. apply list_elem_of_In in Ht. vm_compute in Ht.
    destruct Ht as [<- | [<- | []]]; (split; [compute_done|]);
      intros k k' v Hk Hk' _;
      apply elem_of_map_to_list, list_elem_of_In in Hk, Hk';
      vm_compute in Hk, Hk'; intuition congruence.
Defined.

(** X16: with two services at the same cost above zero, the order of
    the visit decides which of them is written as the top service:
    both orders are orders of the map, and the rows differ. *)
Theorem UpdateGoogleSheets_tie
    (go : Go) (i : nat) (t : CostTrend) (k k' : string) (v : Qc) :
  k <> k' ->
  (Q2Qc 0 < v)%Qc ->
  ServiceCost t = <[k := Fin v]> {[k' := Fin v]} ->
  let first := visiting (ServiceCost t) [(k, Fin v); (k', Fin v)] in
  let second := visiting (ServiceCost t) [(k', Fin v); (k, Fin v)] in
  (forall j m, first j m ≡ₚ map_to_list m) /\
  (forall j m, second j m ≡ₚ map_to_list m) /\
  trend_cells (with_range go first) i t =
    [ Text (Format go (Date t)); Number (TotalCost t); Text k; Number (Fin v) ] /\
  trend_cells (with_range go second) i t =
    [ Text (Format go (Date t)); Number (TotalCost t); Text k'; Number (Fin v) ].
Proof.
  intros Hne Hpos Hm first second.
  assert (Hlist : map_to_list (ServiceCost t) ≡ₚ [(k, Fin v); (k', Fin v)]).
  { rewrite Hm, map_to_list_insert by now apply lookup_singleton_ne.
    now rewrite map_to_list_singleton. }
  assert (H0 : Qc_ltb (Q2Qc 0) v = true) by now apply Qc_ltb_lt.
  assert (Hv : Qc_ltb v v = false) by (apply Qc_ltb_ge, Qcle_refl).
  split; [|split; [|split]].
  - intros j m. unfold first, visiting. case_decide as E; [|reflexivity].
    now rewrite E, Hlist.
  - intros j m. unfold second, visiting. case_decide as E; [|reflexivity].
    rewrite E, Hlist. apply perm_swap.
  - unfold trend_cells, first, visiting. cbn [range with_range Format].
    rewrite decide_True by reflexivity.
    change [(k, Fin v); (k', Fin v)] with (([] ++ [(k, Fin v)]) ++ [(k', Fin v)]).
    rewrite !top_service_snoc. change (top_service []) with ("", Fin (Q2Qc 0)).
    cbn [snd flt]. rewrite H0. cbn [snd flt]. now rewrite Hv.
  - unfold trend_cells, second, visiting. cbn [range with_range Format].
    rewrite decide_True by reflexivity.
    change [(k', Fin v); (k, Fin v)] with (([] ++ [(k', Fin v)]) ++ [(k, Fin v)]).
    rewrite !top_service_snoc. change (top_service []) with ("", Fin (Q2Qc 0)).
    cbn [snd flt]. rewrite H0. cbn [snd flt]. now rewrite Hv.
Qed.

Lemma UpdateGoogleSheets_tie_witness :
  trend_cells
    (with_range golang
       (visiting {[ "Compute Engine" := Fin (Q2Qc 5); "Cloud Storage" := Fin (Q2Qc 5) ]}
          [("Cloud Storage", Fin (Q2Qc 5)); ("Compute Engine", Fin (Q2Qc 5))]))
    0
    {| Date := 99; TotalCost := Fin (Q2Qc 10);
       ServiceCost := {[ "Compute Engine" := Fin (Q2Qc 5);
                         "Cloud Storage" := Fin (Q2Qc 5) ]};
       ProjectCost := ∅ |}
  = [ Text "1970-04-10"; Number (Fin (Q2Qc 10));
      Text "Cloud Storage"; Number (Fin (Q2Qc 5)) ].
Proof.
  refine (proj2 (proj2 (proj2
    (UpdateGoogleSheets_tie golang 0
       {| Date := 99; TotalCost := Fin (Q2Qc 10);
          ServiceCost := {[ "Compute Engine" := Fin (Q2Qc 5);
                            "Cloud Storage" := Fin (Q2Qc 5) ]};
          ProjectCost := ∅ |}
       "Compute Engine" "Cloud Storage" (Q2Qc 5) _ _ _)))).
  - discriminate.
  - reflexivity.
  - reflexivity.
Defined.

Lemma UpdateGoogleSheets_unfold (go : Go) (sheetsClient : SheetsService)
    (calls : list UpdateCall) (spreadsheetID : string)
    (trends : list CostTrend) (anomalies : list Anomaly) :
  let c1 := trendsUpdate go spreadsheetID trends in
  let c2 := anomaliesUpdate go spreadsheetID anomalies in
  UpdateGoogleSheets go sheetsClient calls spreadsheetID trends anomalies =
    match Do sheetsClient calls c1 with
    | Some err => (calls ++ [c1], Err ("failed to update trends sheet: " ++ err))
    | None =>
        match Do sheetsClient (calls ++ [c1]) c2 with
        | Some err =>
            (calls ++ [c1; c2], Err ("failed to update anomalies sheet: " ++ err))
        | None => (calls ++ [c1; c2], Ok tt)
        end
    end.
Proof.
  cbn zeta. unfold UpdateGoogleSheets. cbn zeta.
  destruct (Do sheetsClient calls _); [reflexivity|].
  rewrite <- !app_assoc. reflexivity.
Qed.

(** X17: the calls of [UpdateGoogleSheets].  The sheet of the trends
    is written first, and the sheet of the anomalies after it, when
    the service has accepted the first call, and not otherwise; the
    result is no error exactly when the service has accepted both.
    So an error of the second call leaves the sheet of the trends
    written. *)
Theorem UpdateGoogleSheets_calls
    (go : Go) (sheetsClient : SheetsService) (calls : list UpdateCall)
    (spreadsheetID : string) (trends : list CostTrend) (anomalies : list Anomaly) :
  let c1 := trendsUpdate go spreadsheetID trends in
  let c2 := anomaliesUpdate go spreadsheetID anomalies in
  let out := UpdateGoogleSheets go sheetsClient calls spreadsheetID trends anomalies in
  (Do sheetsClient calls c1 <> None -> out.1 = calls ++ [c1]) /\
  (Do sheetsClient calls c1 = None -> out.1 = calls ++ [c1; c2]) /\
  (out.2 = Ok tt <->
   Do sheetsClient calls c1 = None /\ Do sheetsClient (calls ++ [c1]) c2 = None).
Proof.
  intros c1 c2 out. unfold out.
  pose proof (UpdateGoogleSheets_unfold go sheetsClient calls spreadsheetID
                trends anomalies) as ->. fold c1 c2.
  destruct (Do sheetsClient calls c1) as [e1|].
  - cbn. split; [reflexivity|]. split; [discriminate|].
    split; [discriminate | now intros [? _]].
  - destruct (Do sheetsClient (calls ++ [c1]) c2) as [e2|]; cbn.
    + split; [congruence|]. split; [reflexivity|].
      split; [discriminate | now intros [_ ?]].
    + split; [congruence|]. split; [reflexivity|]. split; auto.
Qed.

Lemma UpdateGoogleSheets_calls_witness :
  (UpdateGoogleSheets golang no_anomalies_sheet [] "sheet"
     (trends_of with_credits 30) []).1
  = [ trendsUpdate golang "sheet" (trends_of with_credits 30);
      anomaliesUpdate golang "sheet" [] ] /\
  (UpdateGoogleSheets golang refusing [] "sheet" (trends_of with_credits 30) []).1
  = [ trendsUpdate golang "sheet" (trends_of with_credits 30) ].
Proof.
  split.
  - apply (UpdateGoogleSheets_calls golang no_anomalies_sheet [] "sheet"). reflexivity.
  - apply (UpdateGoogleSheets_calls golang refusing [] "sheet"). discriminate.
Defined.

(** X18: the two sheets.  Each has a row of headers and below it one
    row for each trend, of four cells, or for each finding, of eight. *)
Theorem UpdateGoogleSheets_shape
    (go : Go) (spreadsheetID : string) (trends : list CostTrend)
    (anomalies : list Anomaly) :
  let c1 := trendsUpdate go spreadsheetID trends in
  let c2 := anomaliesUpdate go spreadsheetID anomalies in
  length (call_values c1) = S (length trends) /\
  Forall (fun row => length row = 4) (call_values c1) /\
  length (call_values c2) = S (length anomalies) /\
  Forall (fun row => length row = 8) (call_values c2).
Proof.
  cbn. rewrite length_imap, length_map.
  split; [reflexivity|]. split; [|split; [reflexivity|]].
  - constructor; [reflexivity|]. apply Forall_forall. intros row Hrow.
    apply elem_of_lookup_imap in Hrow as (i & t & -> & _).
    unfold trend_cells. now destruct (top_service _).
  - constructor; [reflexivity|]. apply Forall_fmap, Forall_forall. now intros a _.
Qed.

(** X19: a finding whose expected cost is zero is written with a
    deviation that is no number: the cell reads "NaN%", "+Inf%" or
    "-Inf%". *)
Theorem UpdateGoogleSheets_deviation_of_zero
    (go : Go) (ca : CostAnalytics) (days : Z) (threshold : float64)
    (spreadsheetID : string) (anomalies : list Anomaly) (i : nat) (a : Anomaly) :
  DetectAnomalies ca days threshold = Ok anomalies ->
  anomalies !! i = Some a ->
  ExpectedCost a = Fin (Q2Qc 0) ->
  exists (row : list cell) (text : string),
    call_values (anomaliesUpdate go spreadsheetID anomalies) !! S i = Some row /\
    row !! 5%nat = Some (Text text) /\
    (text = "NaN%" \/ text = "+Inf%" \/ text = "-Inf%").
Proof.
  intros Hok Hi Hzero.
  assert (Ha : a ∈ anomalies) by (eapply list_elem_of_lookup_2, Hi).
  destruct (deviationPct_of_finding _ _ _ _ _ Hok Ha)
    as (_ & actual & expected & _ & Hexp & _ & Hdev).
  rewrite Hexp in Hzero. injection Hzero as ->.
  destruct (Hdev eq_refl) as [Hpct _].
  exists (anomaly_cells go a), (String.append (Sprintf_prec go 1 (DeviationPct a)) "%").
  split; [|split; [reflexivity|]].
  - cbn [anomaliesUpdate call_values]. unfold anomalyValues.
    change (map (anomaly_cells go) anomalies !! i = Some (anomaly_cells go a)).
    now rewrite list_lookup_fmap, Hi.
  - rewrite Hpct. case_decide; [now left|].
    destruct (Qc_ltb actual (Q2Qc 0)); cbn; auto.
Qed.

Lemma UpdateGoogleSheets_deviation_of_zero_witness :
  exists (row : list cell) (text : string),
    call_values (anomaliesUpdate golang "sheet" (findings_of zero_mean 30 (Fin (Q2Qc 2))))
      !! 1%nat = Some row /\
    row !! 5%nat = Some (Text text) /\
    (text = "NaN%" \/ text = "+Inf%" \/ text = "-Inf%").
Proof.
  apply (UpdateGoogleSheets_deviation_of_zero golang zero_mean 30 (Fin (Q2Qc 2)) "sheet"
           (findings_of zero_mean 30 (Fin (Q2Qc 2))) 0
           (default (anomaly_of_row
                       {| row_UsageDate := 0; row_ProjectID := ""; row_ServiceName := "";
                          row_ActualCost := 0; row_ExpectedCost := 0;
                          row_StddevCost := 0; row_ZScore := 0 |})
              (findings_of zero_mean 30 (Fin (Q2Qc 2)) !! 0%nat))).
  - vm_compute. reflexivity.
  - vm_compute. reflexivity.
  - compute_done.
Defined.

(** ** The HTTP handlers *)

Lemma costs_map_finite (costs : list (string * Qc)) :
  map_Forall (fun _ v => json_number v = true) (costs_map costs).
Proof.
  unfold costs_map.
  assert (H : forall m : gmap string float64,
             map_Forall (fun _ v => json_number v = true) m ->
             map_Forall (fun _ v => json_number v = true)
               (fold_left (fun m c => <[c.1 := Fin c.2]> m) costs m)).
  { induction costs as [|c costs IH]; intros m Hm; [exact Hm|].
    cbn [fold_left]. apply IH. now apply map_Forall_insert_2. }
  apply H, map_Forall_empty.
Qed.

(** A trend stands for a row of the table of its date. *)
Lemma trend_row (ca : CostAnalytics) (days : Z) (trends : list CostTrend) (t : CostTrend) :
  GetCostTrends ca days = Ok trends ->
  t ∈ trends ->
  exists r, r ∈ table (bqClient ca) /\ DATE (usage_start_time r) = Date t.
Proof.
  intros H Ht. apply GetCostTrends_Ok in H as [_ ->].
  assert (Hd : Date t ∈ map UsageDate
                 (aggregated_costs (table (bqClient ca)) (CURRENT_DATE (bqClient ca)) days)).
  { apply list_elem_of_fmap in Ht as (row & -> & Hrow).
    apply (list_elem_of_fmap_2 UsageDate) in Hrow. exact Hrow. }
  rewrite aggregated_costs_dates, elem_of_remove_dups in Hd.
  apply elem_of_daily_costs_dates in Hd as (r & Hr & Hdate & _). eauto.
Qed.

Lemma json_trends (ca : CostAnalytics) (days : Z) (trends : list CostTrend) :
  (forall r, r ∈ table (bqClient ca) -> json_time (DATE (usage_start_time r)) = true) ->
  GetCostTrends ca days = Ok trends -> forallb json_CostTrend trends = true.
Proof.
  intros Hdates H. apply forallb_forall. intros t Ht. apply list_elem_of_In in Ht.
  destruct (trend_row _ _ _ _ H Ht) as (r & Hr & Hdate).
  apply GetCostTrends_Ok in H as [_ ->].
  unfold json_CostTrend. rewrite <- Hdate, (Hdates r Hr).
  apply list_elem_of_fmap in Ht as (row & -> & _). cbn.
  rewrite !bool_decide_eq_true_2 by apply costs_map_finite. reflexivity.
Qed.

Lemma Encode_json {A : Type} (json : A -> bool) (JSON : list A -> Body) (v : list A) :
  forallb json v = true ->
  Encode json JSON v =
    {| StatusCode := 200; body := if decide (v = []) then JSON_null else JSON v |}.
Proof.
  intros H. unfold Encode. destruct v as [|a v]; [reflexivity|]. now rewrite H.
Qed.



(** X20: the trends are always sent.  For a table whose dates are
    dates of the years 0 to 9999, the answer of [handleGetTrends] is
    the error of the query with status 500, or status 200 with the
    trends as JSON, [null] when there are none: the encoding does not
    fail, as every number of a trend is finite. *)
Theorem handleGetTrends_response (ca : CostAnalytics) (query : gmap string string) :
  (forall r, r ∈ table (bqClient ca) -> json_time (DATE (usage_start_time r)) = true) ->
  handleGetTrends ca query =
    match GetCostTrends ca (days_parameter (Get query "days") 30) with
    | Err err => Error err 500
    | Ok trends =>
        {| StatusCode := 200;
           body := if decide (trends = []) then JSON_null else JSON_trends trends |}
    end.
Proof.
  intros Hdates. unfold handleGetTrends. cbn zeta.
  destruct (GetCostTrends ca _) as [trends|err] eqn:E; [|reflexivity].
  apply Encode_json. eapply json_trends; eassumption.
Qed.

Lemma handleGetTrends_response_witness :
  handleGetTrends with_credits {[ "days" := "1" ]} =
    {| StatusCode := 200; body := JSON_trends (trends_of with_credits 1) |}.
Proof.
  rewrite (handleGetTrends_response with_credits {[ "days" := "1" ]}).
  - vm_compute. reflexivity.
  - intros r Hr. apply list_elem_of_In in Hr.
    destruct Hr as [<- | [<- | [<- | []]]]; reflexivity.
Defined.






Lemma handleUpdateSheets_unfold (go : Go) (sheetsClient : SheetsService)
    (ca : CostAnalytics) (calls : list UpdateCall) (query : gmap string string) :
  let spreadsheetID := Get query "spreadsheet_id" in
  let c1 := trendsUpdate go spreadsheetID (trends_of ca 30) in
  let c2 := anomaliesUpdate go spreadsheetID (findings_of ca 30 (Fin (Q2Qc 2))) in
  handleUpdateSheets go sheetsClient ca calls query =
    if decide (spreadsheetID = "") then
      (calls, Error "spreadsheet_id parameter required" 400)
    else
      match read_error (bqClient ca) with
      | Some err => (calls, Error ("failed to execute query: " ++ err) 500)
      | None =>
          match Do sheetsClient calls c1 with
          | Some err =>
              (calls ++ [c1], Error ("failed to update trends sheet: " ++ err) 500)
          | None =>
              match Do sheetsClient (calls ++ [c1]) c2 with
              | Some err =>
                  (calls ++ [c1; c2],
                   Error ("failed to update anomalies sheet: " ++ err) 500)
              | None =>
                  (calls ++ [c1; c2],
                   {| StatusCode := 200; body := JSON_status "updated" |})
              end
          end
      end.
Proof.
  cbn zeta. unfold handleUpdateSheets. cbn zeta.
  case_decide; [reflexivity|].
  unfold trends_of, findings_of, GetCostTrends, DetectAnomalies, Read. cbn zeta.
  destruct (read_error (bqClient ca)) as [err|]; [reflexivity|].
  match goal with |- context [UpdateGoogleSheets ?go ?sh ?calls ?id ?trends ?anomalies] =>
    pose proof (UpdateGoogleSheets_unfold go sh calls id trends anomalies) as ->
  end.
  destruct (Do sheetsClient calls _); [reflexivity|].
  destruct (Do sheetsClient (calls ++ _) _); reflexivity.
Qed.

(** X23: [handleUpdateSheets] answers 400 exactly when the request
    names no spreadsheet.  It answers 200 exactly when the request
    names one, the warehouse can be read, and the Sheets service has
    accepted both calls; the two sheets of that spreadsheet have then
    been written with the trends of 30 days and with the findings at
    the threshold 2.  No call is made for a request without a
    spreadsheet or when the warehouse cannot be read. *)
Theorem handleUpdateSheets_response
    (go : Go) (sheetsClient : SheetsService) (ca : CostAnalytics)
    (calls : list UpdateCall) (query : gmap string string) :
  let spreadsheetID := Get query "spreadsheet_id" in
  let c1 := trendsUpdate go spreadsheetID (trends_of ca 30) in
  let c2 := anomaliesUpdate go spreadsheetID (findings_of ca 30 (Fin (Q2Qc 2))) in
  let out := handleUpdateSheets go sheetsClient ca calls query in
  (StatusCode out.2 = 400%Z <-> spreadsheetID = "") /\
  (StatusCode out.2 = 200%Z <->
     spreadsheetID <> "" /\ read_error (bqClient ca) = None /\
     Do sheetsClient calls c1 = None /\ Do sheetsClient (calls ++ [c1]) c2 = None) /\
  (StatusCode out.2 = 200%Z ->
     out = (calls ++ [c1; c2], {| StatusCode := 200; body := JSON_status "updated" |})) /\
  (spreadsheetID = "" \/ read_error (bqClient ca) <> None -> out.1 = calls).
Proof.
  intros spreadsheetID c1 c2 out. unfold out.
  pose proof (handleUpdateSheets_unfold go sheetsClient ca calls query) as ->.
  fold spreadsheetID c1 c2.
  case_decide as Hid.
  { cbn. split; [tauto|]. split; [|split; [discriminate | reflexivity]].
    split; [discriminate | tauto]. }
  destruct (read_error (bqClient ca)) as [err|].
  { cbn. split; [split; [discriminate | tauto]|].
    split; [|split; [discriminate | reflexivity]].
    split; [discriminate | intros (_ & ? & _); discriminate]. }
  destruct (Do sheetsClient calls c1) as [e1|].
  { cbn. split; [split; [discriminate | tauto]|].
    split; [|split; [discriminate | intros [? | ?]; tauto]].
    split; [discriminate | intros (_ & _ & ? & _); discriminate]. }
  destruct (Do sheetsClient (calls ++ [c1]) c2) as [e2|].
  { cbn. split; [split; [discriminate | tauto]|].
    split; [|split; [discriminate | intros [? | ?]; tauto]].
    split; [discriminate | intros (_ & _ & _ & ?); discriminate]. }
  cbn. split; [split; [discriminate | tauto]|].
  split; [tauto|]. split; [reflexivity | intros [? | ?]; tauto].
Qed.

Lemma handleUpdateSheets_response_witness :
  handleUpdateSheets golang accepting with_credits [] {[ "spreadsheet_id" := "sheet" ]}
  = ([ trendsUpdate golang "sheet" (trends_of with_credits 30);
       anomaliesUpdate golang "sheet" (findings_of with_credits 30 (Fin (Q2Qc 2))) ],
     {| StatusCode := 200; body := JSON_status "updated" |}).
Proof.
  destruct (handleUpdateSheets_response golang accepting with_credits []
              {[ "spreadsheet_id" := "sheet" ]}) as (_ & H200 & Hout & _).
  apply Hout, H200. repeat split. discriminate.
Defined.

(** X24: a [days] that is no integer is no error: the handlers answer
    as they do without the parameter, with the trends of 30 days and
    the forecast for 7. *)
Theorem days_parameter_not_an_integer
    (ca : CostAnalytics) (query : gmap string string) (daysStr : string) :
  Atoi daysStr = None ->
  handleGetTrends ca (<["days" := daysStr]> query)
    = handleGetTrends ca (delete "days" query) /\
  handleGetForecast ca (<["days" := daysStr]> query)
    = handleGetForecast ca (delete "days" query).
Proof.
  intros HAtoi.
  assert (Hd : forall def, days_parameter daysStr def = def).
  { intros def. unfold days_parameter. rewrite HAtoi. now case_decide. }
  unfold handleGetTrends, handleGetForecast, Get. cbn zeta.
  rewrite lookup_insert_eq, lookup_delete_eq.
  change (default "" (Some daysStr)) with daysStr.
  change (default "" (@None string)) with "".
  rewrite !Hd. split; reflexivity.
Qed.

Lemma days_parameter_not_an_integer_witness :
  handleGetTrends with_credits (<["days" := "7 days"]> ∅)
    = handleGetTrends with_credits (delete "days" ∅) /\
  handleGetForecast with_credits (<["days" := "7 days"]> ∅)
    = handleGetForecast with_credits (delete "days" ∅).
Proof.
  apply (days_parameter_not_an_integer with_credits ∅ "7 days").
  vm_compute. reflexivity.
Defined.

(** X25: a threshold that [ParseFloat] reads as a NaN or an infinity
    is passed on as it is; the query text is then no SQL, and the
    answer is the error of the warehouse with status 500. *)
Theorem handleGetAnomalies_threshold_not_a_number
    (go : Go) (ca : CostAnalytics) (query : gmap string string) (t : float64) :
  Get query "threshold" <> "" ->
  ParseFloat go (Get query "threshold") = Some t ->
  is_finite t = false ->
  read_error (bqClient ca) = None ->
  handleGetAnomalies go ca query =
    Error ("failed to execute anomaly query: " ++ invalid_query (bqClient ca)) 500.
Proof.
  intros Hne Hparse Ht Hread. unfold handleGetAnomalies, threshold_parameter. cbn zeta.
  rewrite decide_False by exact Hne. rewrite Hparse.
  unfold DetectAnomalies, Read. cbn zeta. rewrite Hread.
  destruct t; [discriminate Ht | reflexivity..].
Qed.

Lemma handleGetAnomalies_threshold_not_a_number_witness :
  handleGetAnomalies golang spike {[ "threshold" := "NaN" ]} =
    Error "failed to execute anomaly query: Unrecognized name" 500.
Proof.
  apply (handleGetAnomalies_threshold_not_a_number golang spike
           {[ "threshold" := "NaN" ]} NaN).
  - discriminate.
  - reflexivity.
  - reflexivity.
  - reflexivity.
Defined.
